(** * natural-grid: a shallow embedding of the grid engine

    The definitions below follow [lib/tabular-ux/grid.js] (the module that
    implements the [<natural-grid>] custom element): configuration
    resolution, the legacy table upgrade, the capability API, the built-in
    data providers, the style pipeline and the window computation of the
    renderer.

    Conventions.
    - A JavaScript string is a [string]; its characters are read as code
      units below 256.
    - A JavaScript number that the grid uses as a pixel size, a count, a
      threshold or a priority is an integer [Z]; [NaN] and fractions are
      outside the model.
    - An optional property ([x?: T]) is an [option T]; [None] stands for
      [undefined] and [null], which [??] and [?.] treat alike.
    - Mutation of the private fields of the element is explicit state
      passing over the record [Grid].
    - An event of [step] is a task of the event loop together with the
      microtasks it queues. The page connects the element, changes its
      attributes and calls its API in tasks of their own.
    - What is awaited: an [await] on something that settles without the
      network (an [async] function that awaits nothing, a computed value)
      resumes in a microtask of the same task, before the element handles
      any other event; it is no step of its own. An [await] on the network
      (a request of the fetch provider, the import of a plugin module)
      suspends the function; its continuation is an event of [step].
    - A handler registered with [api.on] is code of a plugin; it is
      represented by the calls it makes to the capability API, as a
      function of the detail it is called with and of the model it finds.
      State a plugin keeps for itself is outside the model. *)

From Stdlib Require Import ZArith Lia Bool Ascii String.
From Stdlib Require Import DecimalNat DecimalString.
From stdpp Require Import base list strings.

Local Open Scope Z_scope.
Set Warnings "-register-all".

(** ** JavaScript helpers *)

Module JS.

(** White space and line terminators removed by [String.prototype.trim],
    for code units below 256. *)
Definition isSpace (c : ascii) : bool :=
  let n := nat_of_ascii c in
  (Nat.eqb n 9 || Nat.eqb n 10 || Nat.eqb n 11 || Nat.eqb n 12
   || Nat.eqb n 13 || Nat.eqb n 32 || Nat.eqb n 160)%bool.

Fixpoint trimStart (s : string) : string :=
  match s with
  | EmptyString => EmptyString
  | String c s' => if isSpace c then trimStart s' else s
  end.

Fixpoint trimEnd (s : string) : string :=
  match s with
  | EmptyString => EmptyString
  | String c s' =>
      match trimEnd s' with
      | EmptyString => if isSpace c then EmptyString else String c EmptyString
      | r => String c r
      end
  end.

Definition trim (s : string) : string := trimEnd (trimStart s).

Definition lowerChar (c : ascii) : ascii :=
  let n := nat_of_ascii c in
  if (Nat.leb 65 n && Nat.leb n 90)%bool then ascii_of_nat (n + 32) else c.

Fixpoint toLowerCase (s : string) : string :=
  match s with
  | EmptyString => EmptyString
  | String c s' => String (lowerChar c) (toLowerCase s')
  end.

(** Decimal rendering of a non-negative integer, as a template literal
    prints it. *)
Definition natToString (n : nat) : string :=
  NilEmpty.string_of_uint (Nat.to_uint n).

(** [x || d] on strings: the empty string is falsy. *)
Definition strOr (x d : string) : string :=
  if String.eqb x "" then d else x.

(** [x || d] where [x] may also be [null]. *)
Definition optStrOr (x : option string) (d : string) : string :=
  match x with
  | Some s => strOr s d
  | None => d
  end.

(** Truthiness of an optional string. *)
Definition truthyStr (x : option string) : bool :=
  match x with
  | Some s => negb (String.eqb s "")
  | None => false
  end.

(** Every character of [s] satisfies [P]. *)
Fixpoint allChars (P : ascii -> bool) (s : string) : bool :=
  match s with
  | EmptyString => true
  | String c s' => P c && allChars P s'
  end.

Definition isDigit (c : ascii) : bool :=
  let n := nat_of_ascii c in (Nat.leb 48 n && Nat.leb n 57)%bool.

(** [a.localeCompare(b)]. The collation of the locale is outside the
    model: the order of the code units stands in for it. It is consulted
    only between two style fragments of equal priority and between two
    plugins of equal priority and equal load order. *)
Definition localeCompare (a b : string) : comparison := String.compare a b.

End JS.

(** ** Data model *)

Inductive Status := StInit | StLoading | StReady | StError.

Inductive Align := AlignLeft | AlignRight | AlignCenter.

Record Column := mkColumn {
  col_key : string;
  col_title : string;
  col_widthPx : option Z;
  col_align : option Align
}.

(** A cell value ([unknown] in the source): the shapes [normalizeCell]
    tells apart. *)
Inductive CellValue :=
| CellNull
| CellStr (s : string)
| CellNum (n : Z)
| CellBool (b : bool)
| CellText (text : string)
| CellHtml (html : string).

(** A JavaScript object used as a record of cells: keys in insertion
    order, one entry per key. *)
Definition Cells := list (string * CellValue).

Fixpoint objSet (o : Cells) (k : string) (v : CellValue) : Cells :=
  match o with
  | [] => [(k, v)]
  | (k', v') :: o' =>
      if String.eqb k' k then (k', v) :: o' else (k', v') :: objSet o' k v
  end.

Fixpoint objGet (o : Cells) (k : string) : option CellValue :=
  match o with
  | [] => None
  | (k', v') :: o' => if String.eqb k' k then Some v' else objGet o' k
  end.

Inductive Row := mkRow {
  row_id : string;
  row_cells : Cells;
  row_children : list Row
}.

(** Sort and filter descriptors are [Array<any>] for the core. *)
Definition Descriptor := string.

Record Snapshot := mkSnapshot {
  snap_columns : option (list Column);
  snap_rows : option (list Row);
  snap_sort : option (list Descriptor);
  snap_filters : option (list Descriptor)
}.

Record DataSource := mkDataSource {
  ds_kind : option string;
  ds_snapshot : option Snapshot;
  ds_url : option string;
  ds_pollMs : option Z
}.

Record VirtualizationUi := mkVirtualizationUi {
  v_enabled : option bool;
  v_rowHeightPx : option Z;
  v_viewportHeightPx : option Z;
  v_bufferRows : option Z;
  v_columnWidthPx : option Z;
  v_columnBuffer : option Z;
  v_viewportWidthPx : option Z;
  v_rowThreshold : option Z;
  v_columnThreshold : option Z
}.

Record Ui := mkUi {
  ui_zebra : bool;
  ui_toolbar_enabled : option bool;
  ui_tree_enabled : bool;
  ui_virtualization : option VirtualizationUi
}.

(** ** The runtime model *)

Record GridModel := mkModel {
  m_columns : list Column;
  m_rows : list Row;
  m_sort : list Descriptor;
  m_filters : list Descriptor;
  m_status : Status;
  m_error : string
}.

Definition emptyModel : GridModel :=
  {| m_columns := []; m_rows := []; m_sort := []; m_filters := [];
     m_status := StInit; m_error := "" |}.

(** ** Plugins and the capability API, as data

    A plugin factory is arbitrary code that reaches the grid through the
    capability API only; it is represented by the API calls it makes. *)

Inductive ProviderKind := ProvStatic | ProvFetch | ProvSse.

(** What a handler reads of the detail object of an event: the rows it
    carries ([detail.rows], or [detail.payload.rows] for a "data" event),
    when that property is an array. The handlers of the plugins of the
    repository read nothing else of the detail of a "data" event. *)
Definition Detail := option (list Row).

Inductive ApiOp :=
| OpRequestRender
| OpEmit (eventName : string) (detail : Detail)
| OpAddStyles (cssText : string) (id : option string) (priority : option Z)
    (uuid : string)
| OpDisposeStyles (id : string)
| OpRegisterDataProvider (kind : string) (factory : ProviderKind)
| OpSetStatus (status : Status)
| OpSetError (message : string)
| OpSetSnapshot (snapshot : Snapshot)
| OpSetRows (rows : option (list Row))
| OpUpsertRows (rows : option (list Row))
| OpSetTreeExpansion (ids : list string)
| OpOn (eventName : string) (handlerId : nat)
    (handler : Detail -> GridModel -> list ApiOp)
| OpOff (eventName : string) (handlerId : nat).

(** A function passed to [api.on]. Two handlers are the same function
    object exactly when they have the same [h_id]; [OpOff] is the call of
    the unsubscribe function that [api.on] returned for it. *)
Record Handler := mkHandler {
  h_id : nat;
  h_react : Detail -> GridModel -> list ApiOp
}.

(** What [import(ref.moduleUrl)] yields when the module exports a default
    factory: its metadata, the calls the factory makes, and the calls of the
    disposer it returns (if it returns one). *)
Record PluginModule := mkPluginModule {
  mod_id : option string;
  mod_priority : option Z;
  mod_factory : list ApiOp;
  mod_disposer : option (list ApiOp)
}.

Record PluginRef := mkPluginRef {
  ref_id : option string;
  ref_priority : option Z;
  ref_moduleUrl : option string;
  ref_import : option PluginModule
}.

Record GridSpec := mkGridSpec {
  spec_id : string;
  spec_title : option string;
  spec_ui : option Ui;
  spec_columns : option (list Column);
  spec_data : option DataSource;
  spec_plugins : list PluginRef
}.

(** ** Legacy table upgrade *)

Record TableCell := mkTableCell { textContent : string }.

Record TableRow := mkTableRow {
  tr_cells : list TableCell;
  tr_data_row_id : option string
}.

(** An [HTMLTableElement]: the rows of its [tHead] (if any) and the rows of
    each of its [tBodies]. *)
Record HTMLTable := mkHTMLTable {
  tHead : option (list TableRow);
  tBodies : list (list TableRow)
}.

Record Hints := mkHints { hint_id : string; hint_title : option string }.

Definition headCells (table : HTMLTable) : list TableCell :=
  match tHead table with
  | Some (headRow :: _) => tr_cells headRow
  | _ => []
  end.

Definition bodyRows (table : HTMLTable) : list TableRow :=
  match tBodies table with
  | rows :: _ => rows
  | [] => []
  end.

Definition columnOfHeader (i : nat) (th : TableCell) : Column :=
  {| col_key := "c" +:+ JS.natToString (i + 1);
     col_title := JS.trim (JS.strOr (textContent th)
                                    ("Col " +:+ JS.natToString (i + 1)));
     col_widthPx := None;
     col_align := None |}.

(** [(td?.textContent ?? "").trim()] for the cell at index [i]. *)
Definition cellText (tds : list TableCell) (i : nat) : string :=
  JS.trim (match tds !! i with
           | Some td => textContent td
           | None => ""
           end).

Definition cellsOfRow (columns : list Column) (tds : list TableCell) : Cells :=
  foldl (fun cells ic => objSet cells (col_key (snd ic))
                                (CellStr (cellText tds (fst ic))))
        [] (imap (fun i col => (i, col)) columns).

Definition rowOfTr (hints : Hints) (columns : list Column)
    (idx : nat) (tr : TableRow) : Row :=
  {| row_id := JS.optStrOr (tr_data_row_id tr)
                 (hint_id hints +:+ "__r" +:+ JS.natToString (idx + 1));
     row_cells := cellsOfRow columns (tr_cells tr);
     row_children := [] |}.

Definition gridSpecFromTable (table : HTMLTable) (hints : Hints) : GridSpec :=
  let columns := imap columnOfHeader (headCells table) in
  let rows := imap (rowOfTr hints columns) (bodyRows table) in
  {| spec_id := hint_id hints;
     spec_title := Some (default "" (hint_title hints));
     spec_ui := Some {| ui_zebra := false;
                        ui_toolbar_enabled := Some false;
                        ui_tree_enabled := false;
                        ui_virtualization := None |};
     spec_columns := Some columns;
     spec_data := Some {| ds_kind := Some "static";
                          ds_snapshot := Some {| snap_columns := Some columns;
                                                 snap_rows := Some rows;
                                                 snap_sort := None;
                                                 snap_filters := None |};
                          ds_url := None;
                          ds_pollMs := None |};
     spec_plugins := [] |}.

(** ** The host element and its surroundings

    What configuration resolution and the style pipeline read from the DOM
    and from the browser. *)

Record Host := mkHost {
  attr_data_init : option string;
  attr_data_config_id : option string;
  attr_data_factory : option string;
  attr_data_title : option string;
  attr_id : option string;
  attr_data_unstyled : bool;
  (** first child [script[type="application/json"][data-natural-grid-config]]
      and first child [script[type="application/json"]]: each with the
      truthy value [JSON.parse] gives for its text, if any *)
  child_configScript : option (option GridSpec);
  child_jsonScript : option (option GridSpec);
  (** first descendant [table] *)
  child_table : option HTMLTable;
  (** [document.getElementById]: elements by id, each with the truthy value
      [JSON.parse] gives for its text, if any *)
  document_byId : list (string * option GridSpec);
  (** global functions by name, each with the object it returns, if any *)
  global_functions : list (string * option GridSpec);
  (** the identifier [crypto.randomUUID()] (or its fallback) yields *)
  random_id : string;
  (** [canAdoptSheets(root)]: constructable style sheets are supported *)
  can_adopt_sheets : bool
}.

Fixpoint assoc {A} (k : string) (l : list (string * A)) : option A :=
  match l with
  | [] => None
  | (k', v) :: l' => if String.eqb k' k then Some v else assoc k l'
  end.

(** ** Configuration resolution *)

Inductive Strategy := InternalJson | ExternalJson | TableUpgrade | Factory.

(** A resolution step: the strategies it ran, in order, and its result. *)
Definition Resolve := (list Strategy * option GridSpec)%type.

(** [a() || b()]: [b] runs only when [a] yields no spec. *)
Definition orElse (a : Resolve) (b : unit -> Resolve) : Resolve :=
  match a with
  | (ran, Some spec) => (ran, Some spec)
  | (ran, None) => let '(ran', r) := b tt in (ran ++ ran', r)
  end.

Definition byId (h : Host) (id : string) : option (option GridSpec) :=
  if String.eqb id "" then None else assoc id (document_byId h).

(** [parseJsonScript]: [null] without an element or when parsing fails. *)
Definition parseJsonScript (scriptEl : option (option GridSpec)) : option GridSpec :=
  match scriptEl with
  | Some parsed => parsed
  | None => None
  end.

Definition tryInternalJson (h : Host) : Resolve :=
  let script := match child_configScript h with
                | Some el => Some el
                | None => child_jsonScript h
                end in
  ([InternalJson], parseJsonScript script).

Definition tryExternalJson (h : Host) : Resolve :=
  let cfgId := JS.optStrOr (attr_data_config_id h) "" in
  ([ExternalJson], parseJsonScript (byId h cfgId)).

Definition tryTable (h : Host) : Resolve :=
  ([TableUpgrade],
   match child_table h with
   | None => None
   | Some t =>
       let id := JS.optStrOr (attr_id h) (random_id h) in
       let title := JS.trim (JS.optStrOr (attr_data_title h) "") in
       Some (gridSpecFromTable t
               {| hint_id := id;
                  hint_title := if String.eqb title "" then None else Some title |})
   end).

Definition tryFactory (h : Host) : Resolve :=
  ([Factory],
   let fnName := JS.trim (JS.optStrOr (attr_data_factory h) "") in
   if String.eqb fnName "" then None
   else match assoc fnName (global_functions h) with
        | Some out => out
        | None => None
        end).

Definition explicitMode (h : Host) : string :=
  JS.toLowerCase (JS.trim (JS.optStrOr (attr_data_init h) "")).

Definition resolveConfigTraced (h : Host) : Resolve :=
  let mode := explicitMode h in
  if String.eqb mode "json" then
    orElse (tryInternalJson h) (fun _ => tryExternalJson h)
  else if String.eqb mode "table" then tryTable h
  else if String.eqb mode "factory" then tryFactory h
  else
    orElse (orElse (orElse (tryInternalJson h) (fun _ => tryExternalJson h))
                   (fun _ => tryTable h))
           (fun _ => tryFactory h).

Definition resolveConfig (h : Host) : option GridSpec :=
  snd (resolveConfigTraced h).

(** ** Runtime state of a grid element *)

(** A constructable style sheet, by its text. *)
Definition Sheet := string.

Record PluginStyle := mkPluginStyle {
  ps_id : string;
  ps_priority : Z;
  ps_cssText : string;
  ps_sheet : option Sheet
}.

Record StyleState := mkStyleState {
  pluginStyleSheets : list PluginStyle;
  sheetBase : option Sheet;
  sheetTheme : option Sheet;
  sheetUser : option Sheet;
  userCss : string;
  (** [root.adoptedStyleSheets] *)
  adoptedStyleSheets : list Sheet;
  (** the [<style>] elements appended to the shadow root, by their text *)
  styleFallbackEls : list string
}.

Record VirtualizationState := mkVState { rowStart : Z; colStart : Z }.

(** A provider instance with the variables its closure holds:
    [pollTimer] and [abort] (the request its current [AbortController]
    guards) for the fetch provider, [es] for the stream provider. *)
Inductive ProviderInst :=
| StaticInst
| FetchInst (ds : DataSource) (pollTimer : bool) (abort : option nat)
| SseInst (es : bool).

Inductive RequestState := ReqPending | ReqAborted | ReqSettled.

(** A call of [fetchOnce] suspended at [await fetch(...)]. [req_awaited]
    tells whether [start] awaits it (the first request of a provider);
    [req_cycle] is the initialization cycle whose provider issued it. *)
Record Request := mkRequest {
  req_provider : nat;
  req_awaited : bool;
  req_cycle : nat;
  req_state : RequestState
}.

Record ProviderState := mkProviderState {
  dataProviderFactories : list (string * ProviderKind);
  activeDataProvider : option nat;
  (** every provider instance created so far; an index is an identity *)
  providers : list ProviderInst;
  (** every request issued so far *)
  requests : list Request;
  (** for each provider instance, the initialization cycle that created
      it (not a field of the element) *)
  providerCycles : list nat
}.

Definition Entry := (Row * nat)%type.

(** The values [#render] computes before it builds the table. *)
Record Window := mkWindow {
  w_cols : list Column;
  w_flatEntries : list Entry;
  w_rowHeight : Z;
  w_viewportHeightPx : Z;
  w_bufferRows : Z;
  w_columnWidthHint : Z;
  w_columnBuffer : Z;
  w_viewportWidthPx : Z;
  w_virtualizationEnabled : bool;
  w_rowStart : Z;
  w_visibleRowCount : Z;
  w_rowEnd : Z;
  w_visibleRows : list Entry;
  w_topSpacerHeight : Z;
  w_bottomSpacerHeight : Z;
  w_columnWidths : list Z;
  w_columnOffsets : list Z;
  w_colStart : Z;
  w_colEnd : Z;
  w_visibleColumns : list Column;
  w_leftPadding : Z;
  w_rightPadding : Z
}.

(** What the shadow root shows after a render. *)
Inductive View :=
| ViewBlank
| ViewError (message : string)
| ViewTable (w : Window).

(** An initialization suspended at [await loadExternalPlugins(pluginRefs)]:
    the configuration it resolved (the plugin references are read from it),
    the initialization cycle that started it (not a variable of the
    source), and whether it is still suspended. *)
Record InitTask := mkInitTask {
  it_cfg : GridSpec;
  it_cycle : nat;
  it_pending : bool
}.

Record Grid := mkGrid {
  host : Host;
  config : option GridSpec;
  model : GridModel;
  pluginDisposers : list (list ApiOp);
  styles : StyleState;
  prov : ProviderState;
  virtualizationState : VirtualizationState;
  treeExpandedIds : list string;
  initDone : bool;
  (** number of reinitializations so far (not a field of the element) *)
  cycle : nat;
  (** number of [#render] calls so far (not a field of the element) *)
  renders : nat;
  (** every value assigned to [model.status] so far, latest last (not a
      field of the element) *)
  statusLog : list Status;
  (** names of the events emitted so far, latest last (not a field of the
      element) *)
  emitted : list string;
  view : View;
  (** [#events]: the array of handlers of each event name, by its
      address in [arrays] *)
  events : list (string * nat);
  (** the arrays of handlers allocated so far, each in the order in which
      [api.on] pushed onto it; an array that [#events] no longer holds may
      still be the one a loop of [#emit] runs over *)
  arrays : list (list Handler);
  (** every initialization that suspended at the import of its plugin
      modules so far; an index is an identity (not a field of the element) *)
  inits : list InitTask
}.

Definition newGrid (h : Host) : Grid :=
  {| host := h; config := None; model := emptyModel; pluginDisposers := [];
     styles := {| pluginStyleSheets := []; sheetBase := None;
                  sheetTheme := None; sheetUser := None; userCss := "";
                  adoptedStyleSheets := []; styleFallbackEls := [] |};
     prov := {| dataProviderFactories := []; activeDataProvider := None;
                providers := []; requests := []; providerCycles := [] |};
     virtualizationState := mkVState 0 0;
     treeExpandedIds := []; initDone := false;
     cycle := 0; renders := 0; statusLog := []; emitted := [];
     view := ViewBlank; events := []; arrays := []; inits := [] |}.

(** *** Field updates *)

Definition withHost (h : Host) (g : Grid) : Grid :=
  mkGrid h (config g) (model g) (pluginDisposers g) (styles g) (prov g)
    (virtualizationState g) (treeExpandedIds g) (initDone g) (cycle g)
    (renders g) (statusLog g) (emitted g) (view g)
    (events g) (arrays g) (inits g).

Definition withConfig (c : option GridSpec) (g : Grid) : Grid :=
  mkGrid (host g) c (model g) (pluginDisposers g) (styles g) (prov g)
    (virtualizationState g) (treeExpandedIds g) (initDone g) (cycle g)
    (renders g) (statusLog g) (emitted g) (view g)
    (events g) (arrays g) (inits g).

Definition withModel (m : GridModel) (g : Grid) : Grid :=
  mkGrid (host g) (config g) m (pluginDisposers g) (styles g) (prov g)
    (virtualizationState g) (treeExpandedIds g) (initDone g) (cycle g)
    (renders g) (statusLog g) (emitted g) (view g)
    (events g) (arrays g) (inits g).

Definition withPluginDisposers (d : list (list ApiOp)) (g : Grid) : Grid :=
  mkGrid (host g) (config g) (model g) d (styles g) (prov g)
    (virtualizationState g) (treeExpandedIds g) (initDone g) (cycle g)
    (renders g) (statusLog g) (emitted g) (view g)
    (events g) (arrays g) (inits g).

Definition withStyles (s : StyleState) (g : Grid) : Grid :=
  mkGrid (host g) (config g) (model g) (pluginDisposers g) s (prov g)
    (virtualizationState g) (treeExpandedIds g) (initDone g) (cycle g)
    (renders g) (statusLog g) (emitted g) (view g)
    (events g) (arrays g) (inits g).

Definition withProv (p : ProviderState) (g : Grid) : Grid :=
  mkGrid (host g) (config g) (model g) (pluginDisposers g) (styles g) p
    (virtualizationState g) (treeExpandedIds g) (initDone g) (cycle g)
    (renders g) (statusLog g) (emitted g) (view g)
    (events g) (arrays g) (inits g).

Definition withVirtualizationState (v : VirtualizationState) (g : Grid) : Grid :=
  mkGrid (host g) (config g) (model g) (pluginDisposers g) (styles g) (prov g)
    v (treeExpandedIds g) (initDone g) (cycle g)
    (renders g) (statusLog g) (emitted g) (view g)
    (events g) (arrays g) (inits g).

Definition withTreeExpandedIds (ids : list string) (g : Grid) : Grid :=
  mkGrid (host g) (config g) (model g) (pluginDisposers g) (styles g) (prov g)
    (virtualizationState g) ids (initDone g) (cycle g)
    (renders g) (statusLog g) (emitted g) (view g)
    (events g) (arrays g) (inits g).

Definition withInitDone (b : bool) (g : Grid) : Grid :=
  mkGrid (host g) (config g) (model g) (pluginDisposers g) (styles g) (prov g)
    (virtualizationState g) (treeExpandedIds g) b (cycle g)
    (renders g) (statusLog g) (emitted g) (view g)
    (events g) (arrays g) (inits g).

Definition withCycle (n : nat) (g : Grid) : Grid :=
  mkGrid (host g) (config g) (model g) (pluginDisposers g) (styles g) (prov g)
    (virtualizationState g) (treeExpandedIds g) (initDone g) n
    (renders g) (statusLog g) (emitted g) (view g)
    (events g) (arrays g) (inits g).

Definition withRenders (n : nat) (g : Grid) : Grid :=
  mkGrid (host g) (config g) (model g) (pluginDisposers g) (styles g) (prov g)
    (virtualizationState g) (treeExpandedIds g) (initDone g) (cycle g)
    n (statusLog g) (emitted g) (view g)
    (events g) (arrays g) (inits g).

Definition withEmitted (l : list string) (g : Grid) : Grid :=
  mkGrid (host g) (config g) (model g) (pluginDisposers g) (styles g) (prov g)
    (virtualizationState g) (treeExpandedIds g) (initDone g) (cycle g)
    (renders g) (statusLog g) l (view g)
    (events g) (arrays g) (inits g).

Definition withStatusLog (l : list Status) (g : Grid) : Grid :=
  mkGrid (host g) (config g) (model g) (pluginDisposers g) (styles g) (prov g)
    (virtualizationState g) (treeExpandedIds g) (initDone g) (cycle g)
    (renders g) l (emitted g) (view g)
    (events g) (arrays g) (inits g).

Definition withView (v : View) (g : Grid) : Grid :=
  mkGrid (host g) (config g) (model g) (pluginDisposers g) (styles g) (prov g)
    (virtualizationState g) (treeExpandedIds g) (initDone g) (cycle g)
    (renders g) (statusLog g) (emitted g) v
    (events g) (arrays g) (inits g).

Definition withEvents (e : list (string * nat)) (g : Grid) : Grid :=
  mkGrid (host g) (config g) (model g) (pluginDisposers g) (styles g) (prov g)
    (virtualizationState g) (treeExpandedIds g) (initDone g) (cycle g)
    (renders g) (statusLog g) (emitted g) (view g) e (arrays g) (inits g).

Definition withArrays (a : list (list Handler)) (g : Grid) : Grid :=
  mkGrid (host g) (config g) (model g) (pluginDisposers g) (styles g) (prov g)
    (virtualizationState g) (treeExpandedIds g) (initDone g) (cycle g)
    (renders g) (statusLog g) (emitted g) (view g) (events g) a (inits g).

Definition withInits (t : list InitTask) (g : Grid) : Grid :=
  mkGrid (host g) (config g) (model g) (pluginDisposers g) (styles g) (prov g)
    (virtualizationState g) (treeExpandedIds g) (initDone g) (cycle g)
    (renders g) (statusLog g) (emitted g) (view g) (events g) (arrays g) t.

Definition withColumns (c : list Column) (m : GridModel) : GridModel :=
  mkModel c (m_rows m) (m_sort m) (m_filters m) (m_status m) (m_error m).

Definition withRows (r : list Row) (m : GridModel) : GridModel :=
  mkModel (m_columns m) r (m_sort m) (m_filters m) (m_status m) (m_error m).

Definition withSort (s : list Descriptor) (m : GridModel) : GridModel :=
  mkModel (m_columns m) (m_rows m) s (m_filters m) (m_status m) (m_error m).

Definition withFilters (f : list Descriptor) (m : GridModel) : GridModel :=
  mkModel (m_columns m) (m_rows m) (m_sort m) f (m_status m) (m_error m).

Definition withStatus (s : Status) (m : GridModel) : GridModel :=
  mkModel (m_columns m) (m_rows m) (m_sort m) (m_filters m) s (m_error m).

Definition withError (e : string) (m : GridModel) : GridModel :=
  mkModel (m_columns m) (m_rows m) (m_sort m) (m_filters m) (m_status m) e.

(** ** Style pipeline *)

(** [baseStyles()]: a fixed, non-empty text (the literal is abridged to its
    first declarations). *)
Definition baseStyles : string := ":host { display: block; background: transparent; }".

Definition themeCssText : string := "".

Definition makeSheet (cssText : string) : Sheet := cssText.

Definition nonEmpty (s : string) : bool := negb (String.eqb s "").

Definition shouldInjectStyles (g : Grid) : bool :=
  negb (attr_data_unstyled (host g)).

Definition canAdoptSheets (g : Grid) : bool := can_adopt_sheets (host g).

Definition ensureBaseSheet (g : Grid) : Grid :=
  let st := styles g in
  if negb (shouldInjectStyles g) then
    withStyles (mkStyleState (pluginStyleSheets st) None None None (userCss st)
                  (adoptedStyleSheets st) (styleFallbackEls st)) g
  else if canAdoptSheets g then
    withStyles (mkStyleState (pluginStyleSheets st)
                  (Some (makeSheet baseStyles))
                  (if nonEmpty themeCssText then Some (makeSheet themeCssText)
                   else None)
                  (if nonEmpty (userCss st) then Some (makeSheet (userCss st))
                   else None)
                  (userCss st) (adoptedStyleSheets st) (styleFallbackEls st)) g
  else
    withStyles (mkStyleState (pluginStyleSheets st) None None None (userCss st)
                  (adoptedStyleSheets st) (styleFallbackEls st)) g.

(** The comparator of the plugin style sort is negative:
    [(a.priority - b.priority) || a.id.localeCompare(b.id)]. *)
Definition styleBefore (a b : PluginStyle) : bool :=
  (ps_priority a <? ps_priority b)
  || ((ps_priority a =? ps_priority b)
      && match JS.localeCompare (ps_id a) (ps_id b) with
         | Lt => true
         | _ => false
         end).

(** [Array.prototype.sort] is stable: an element goes before the first one
    it is strictly less than. *)
Fixpoint insertSorted {A} (before : A -> A -> bool) (x : A) (l : list A) : list A :=
  match l with
  | [] => [x]
  | y :: l' => if before x y then x :: y :: l' else y :: insertSorted before x l'
  end.

Definition sortBy {A} (before : A -> A -> bool) (l : list A) : list A :=
  foldl (fun acc x => insertSorted before x acc) [] l.

Definition optList {A} (o : option A) : list A :=
  match o with
  | Some x => [x]
  | None => []
  end.

Definition applyStylePipeline (g : Grid) : Grid :=
  let st := styles g in
  if negb (shouldInjectStyles g) then
    withStyles (mkStyleState (pluginStyleSheets st) (sheetBase st)
                  (sheetTheme st) (sheetUser st) (userCss st)
                  (if canAdoptSheets g then [] else adoptedStyleSheets st)
                  []) g
  else
    let orderedPluginSheets := sortBy styleBefore (pluginStyleSheets st) in
    if canAdoptSheets g then
      let sheets :=
        optList (sheetBase st) ++ optList (sheetTheme st)
        ++ flat_map (fun p => optList (ps_sheet p)) orderedPluginSheets
        ++ optList (sheetUser st) in
      withStyles (mkStyleState (pluginStyleSheets st) (sheetBase st)
                    (sheetTheme st) (sheetUser st) (userCss st) sheets []) g
    else
      let cssTexts :=
        List.filter nonEmpty
          ([baseStyles; themeCssText]
           ++ map ps_cssText orderedPluginSheets ++ [userCss st]) in
      withStyles (mkStyleState (pluginStyleSheets st) (sheetBase st)
                    (sheetTheme st) (sheetUser st) (userCss st)
                    (adoptedStyleSheets st) cssTexts) g.

(** The rules in force in the shadow root, in cascade order: the adopted
    sheets (where the browser has them) and the [<style>] elements. *)
Definition appliedCss (g : Grid) : list string :=
  (if canAdoptSheets g then adoptedStyleSheets (styles g) else [])
  ++ styleFallbackEls (styles g).

(** ** Window computation *)

Fixpoint flattenRow (expanded : option (list string)) (depth : nat)
    (out : list Entry) (r : Row) {struct r} : list Entry :=
  let out1 := out ++ [(r, depth)] in
  let hasKids := negb (Nat.eqb (length (row_children r)) 0) in
  let isExpanded := match expanded with
                    | None => true
                    | Some ids => bool_decide (row_id r ∈ ids)
                    end in
  if hasKids && isExpanded then
    (fix each (kids : list Row) (out : list Entry) : list Entry :=
       match kids with
       | [] => out
       | k :: kids' => each kids' (flattenRow expanded (S depth) out k)
       end) (row_children r) out1
  else out1.

Definition flattenTreeRows (rows : list Row) (depth : nat) (out : list Entry)
    (expanded : option (list string)) : list Entry :=
  foldl (flattenRow expanded depth) out rows.

(** [Math.ceil(a / b)] for a positive divisor. *)
Definition ceilDiv (a b : Z) : Z := - ((- a) / b).

(** [l.slice(a, b)] for non-negative bounds. *)
Definition slice {A} (a b : Z) (l : list A) : list A :=
  take (Z.to_nat b - Z.to_nat a)%nat (drop (Z.to_nat a) l).

(** [l[i]] for a number [i]. *)
Definition nthZ (l : list Z) (i : Z) : option Z :=
  if i <? 0 then None else l !! Z.to_nat i.

Definition len {A} (l : list A) : Z := Z.of_nat (length l).

Definition columnOffsetsOf (columnWidths : list Z) : list Z :=
  foldl (fun acc width => acc ++ [List.last acc 0 + width]) [0] columnWidths.

(** The loop that extends the column window; [rest] are the widths from
    index [colEnd] on. *)
Fixpoint scanColumns (rest : list Z) (colEnd widthAccumulator targetWidth : Z) : Z :=
  match rest with
  | [] => colEnd
  | w :: rest' =>
      if widthAccumulator <? targetWidth
      then scanColumns rest' (colEnd + 1) (widthAccumulator + w) targetWidth
      else colEnd
  end.

Definition noVirtualization : VirtualizationUi :=
  mkVirtualizationUi None None None None None None None None None.

(** [cfg.ui] and [ui.virtualization || {}] *)
Definition uiOf (cfg : option GridSpec) : option Ui :=
  match cfg with Some c => spec_ui c | None => None end.

Definition virtualizationUiOf (cfg : option GridSpec) : VirtualizationUi :=
  match uiOf cfg with
  | Some u => default noVirtualization (ui_virtualization u)
  | None => noVirtualization
  end.

Definition computeWindow (cfg : option GridSpec) (m : GridModel)
    (expandedIds : list string) (vs : VirtualizationState) : Window :=
  let ui := uiOf cfg in
  let cols := match m_columns m with
              | [] => match cfg with
                      | Some c => default [] (spec_columns c)
                      | None => []
                      end
              | cs => cs
              end in
  let rows := m_rows m in
  let treeEnabled := match ui with Some u => ui_tree_enabled u | None => false end in
  let flatEntries :=
    if treeEnabled then flattenTreeRows rows 0 [] (Some expandedIds)
    else map (fun r => (r, 0%nat)) rows in
  let virtualizationUi := virtualizationUiOf cfg in
  let rowHeight := Z.max 1 (default 34 (v_rowHeightPx virtualizationUi)) in
  let viewportHeightPx :=
    Z.max 160 (default 360 (v_viewportHeightPx virtualizationUi)) in
  let bufferRows := Z.max 0 (default 5 (v_bufferRows virtualizationUi)) in
  let columnWidthHint :=
    Z.max 48 (default 160 (v_columnWidthPx virtualizationUi)) in
  let columnBuffer := Z.max 0 (default 2 (v_columnBuffer virtualizationUi)) in
  let viewportWidthPx :=
    Z.max 200 (default 760 (v_viewportWidthPx virtualizationUi)) in
  let virtualizationEnabled :=
    match v_enabled virtualizationUi with
    | Some b => b
    | None =>
        (default 200 (v_rowThreshold virtualizationUi) <? len flatEntries)
        || (default 16 (v_columnThreshold virtualizationUi) <? len cols)
    end in
  let totalFlatRows := len flatEntries in
  let rowStartRaw := rowStart vs in
  let rowStart :=
    if virtualizationEnabled
    then Z.min (Z.max 0 rowStartRaw) (Z.max 0 (totalFlatRows - 1))
    else 0 in
  let visibleRowCount :=
    if virtualizationEnabled
    then Z.max 1 (Z.min totalFlatRows
                    (ceilDiv viewportHeightPx rowHeight + bufferRows * 2))
    else totalFlatRows in
  let rowEnd :=
    if virtualizationEnabled
    then Z.min totalFlatRows (rowStart + visibleRowCount)
    else totalFlatRows in
  let visibleRows :=
    if virtualizationEnabled then slice rowStart rowEnd flatEntries
    else flatEntries in
  let topSpacerHeight :=
    if virtualizationEnabled then rowStart * rowHeight else 0 in
  let bottomSpacerHeight :=
    if virtualizationEnabled
    then Z.max 0 ((totalFlatRows - rowEnd) * rowHeight)
    else 0 in
  let columnWidths :=
    map (fun c => Z.max 1 (default columnWidthHint (col_widthPx c))) cols in
  let columnOffsets := columnOffsetsOf columnWidths in
  let totalColumnWidth := List.last columnOffsets 0 in
  let colStartRaw := colStart vs in
  let colStart :=
    if virtualizationEnabled
    then Z.min (Z.max 0 colStartRaw) (Z.max 0 (len cols - 1))
    else 0 in
  let colEnd :=
    if virtualizationEnabled then
      let targetWidth := viewportWidthPx + columnBuffer * columnWidthHint in
      let colEnd := scanColumns (drop (Z.to_nat colStart) columnWidths)
                      colStart 0 targetWidth in
      if (colEnd =? colStart) && (0 <? len cols)
      then Z.min (len cols) (colStart + 1)
      else colEnd
    else len cols in
  let visibleColumns := slice colStart colEnd cols in
  let leftPadding :=
    if virtualizationEnabled then default 0 (nthZ columnOffsets colStart)
    else 0 in
  let rightPadding :=
    if virtualizationEnabled
    then Z.max 0 (totalColumnWidth
                  - default totalColumnWidth (nthZ columnOffsets colEnd))
    else 0 in
  {| w_cols := cols; w_flatEntries := flatEntries;
     w_rowHeight := rowHeight; w_viewportHeightPx := viewportHeightPx;
     w_bufferRows := bufferRows; w_columnWidthHint := columnWidthHint;
     w_columnBuffer := columnBuffer; w_viewportWidthPx := viewportWidthPx;
     w_virtualizationEnabled := virtualizationEnabled;
     w_rowStart := rowStart; w_visibleRowCount := visibleRowCount;
     w_rowEnd := rowEnd; w_visibleRows := visibleRows;
     w_topSpacerHeight := topSpacerHeight;
     w_bottomSpacerHeight := bottomSpacerHeight;
     w_columnWidths := columnWidths; w_columnOffsets := columnOffsets;
     w_colStart := colStart; w_colEnd := colEnd;
     w_visibleColumns := visibleColumns;
     w_leftPadding := leftPadding; w_rightPadding := rightPadding |}.

(** ** Rendering *)

Definition render (g : Grid) : Grid :=
  let g := withRenders (S (renders g)) g in
  let g := applyStylePipeline (ensureBaseSheet g) in
  match m_status (model g) with
  | StError =>
      withView (ViewError (JS.strOr (m_error (model g)) "Error")) g
  | _ =>
      let w := computeWindow (config g) (model g) (treeExpandedIds g)
                 (virtualizationState g) in
      let g := if w_virtualizationEnabled w then g
               else withVirtualizationState (mkVState 0 0) g in
      withView (ViewTable w) g
  end.

Definition setThemeCss (cssText : string) (g : Grid) : Grid :=
  let st := styles g in
  let g := withStyles
             (mkStyleState (pluginStyleSheets st) (sheetBase st) (sheetTheme st)
                (if canAdoptSheets g
                 then (if nonEmpty cssText then Some (makeSheet cssText) else None)
                 else sheetUser st)
                cssText (adoptedStyleSheets st) (styleFallbackEls st)) g in
  render g.

(** ** Capability API *)

(** [Map.prototype.set] on a map kept in insertion order. *)
Fixpoint mapSet {A} (m : list (string * A)) (k : string) (v : A) : list (string * A) :=
  match m with
  | [] => [(k, v)]
  | (k', v') :: m' =>
      if String.eqb k' k then (k', v) :: m' else (k', v') :: mapSet m' k v
  end.

(** [new Map(entries)] *)
Definition newMap {A} (entries : list (string * A)) : list (string * A) :=
  foldl (fun m kv => mapSet m (fst kv) (snd kv)) [] entries.

(** The merge both [upsertRows] paths perform:
    [next = new Map(rows.map(r => [r.id, r]));
     for (r of incoming) next.set(r.id, r);
     Array.from(next.values())]. *)
Definition rowEntry (r : Row) : string * Row := (row_id r, r).

Definition upsert (existing incoming : list Row) : list Row :=
  let next := newMap (map rowEntry existing) in
  let next := foldl (fun m r => mapSet m (row_id r) r) next incoming in
  map snd next.

(** An assignment to [model.status]. *)
Definition setStatus (s : Status) (g : Grid) : Grid :=
  withStatusLog (statusLog g ++ [s]) (withModel (withStatus s (model g)) g).

Definition setError (message : string) (g : Grid) : Grid :=
  withModel (withError message (model g)) g.

(** The record of an [api.emit] or [#emit] call (the log is not a field of
    the element). *)
Definition logEmit (eventName : string) (g : Grid) : Grid :=
  withEmitted (emitted g ++ [eventName]) g.

Definition configColumns (g : Grid) : list Column :=
  match config g with
  | Some cfg => default [] (spec_columns cfg)
  | None => []
  end.

Definition setSnapshot (snapshot : Snapshot) (g : Grid) : Grid :=
  let cfgCols := configColumns g in
  let m := model g in
  let columns :=
    match snap_columns snapshot with
    | Some cs => cs
    | None => match m_columns m with [] => cfgCols | cs => cs end
    end in
  withModel (mkModel columns
               (default [] (snap_rows snapshot))
               (default [] (snap_sort snapshot))
               (default [] (snap_filters snapshot))
               (m_status m) (m_error m)) g.

Definition setRows (rows : option (list Row)) (g : Grid) : Grid :=
  withModel (withRows (default [] rows) (model g)) g.

Definition upsertRows (rows : option (list Row)) (g : Grid) : Grid :=
  match rows with
  | None => g
  | Some incoming =>
      withModel (withRows (upsert (m_rows (model g)) incoming) (model g)) g
  end.

Definition disposeStyles (id : string) (g : Grid) : Grid :=
  let st := styles g in
  render
    (withStyles
       (mkStyleState
          (List.filter (fun x => negb (String.eqb (ps_id x) id))
             (pluginStyleSheets st))
          (sheetBase st) (sheetTheme st) (sheetUser st) (userCss st)
          (adoptedStyleSheets st) (styleFallbackEls st)) g).

(** [addStyles(cssText, {id, priority})]; [uuid] is what
    [crypto.randomUUID()] (or its fallback) yields when no id is given.
    The second component is the disposer the call returns. *)
Definition addStyles (cssText : string) (optId : option string)
    (optPriority : option Z) (uuid : string) (g : Grid) : Grid * (Grid -> Grid) :=
  let id := JS.optStrOr optId uuid in
  let priority := default 0 optPriority in
  let css := cssText in
  let entry :=
    {| ps_id := id; ps_priority := priority; ps_cssText := css;
       ps_sheet := if nonEmpty css && shouldInjectStyles g && canAdoptSheets g
                   then Some (makeSheet css) else None |} in
  let st := styles g in
  let g := withStyles
             (mkStyleState (pluginStyleSheets st ++ [entry])
                (sheetBase st) (sheetTheme st) (sheetUser st) (userCss st)
                (adoptedStyleSheets st) (styleFallbackEls st)) g in
  (render g, disposeStyles id).

Definition registerDataProvider (kind : string) (factory : ProviderKind)
    (g : Grid) : Grid :=
  let k := JS.trim kind in
  if String.eqb k "" then g
  else
    let p := prov g in
    withProv (mkProviderState (mapSet (dataProviderFactories p) k factory)
                (activeDataProvider p) (providers p) (requests p)
                (providerCycles p)) g.

Definition setTreeExpansion (ids : list string) (g : Grid) : Grid :=
  withTreeExpandedIds (remove_dups ids) g.

(** [this.#events.get(eventName) || []], read as a value. *)
Definition handlersOf (eventName : string) (g : Grid) : list Handler :=
  match assoc eventName (events g) with
  | Some a => default [] (arrays g !! a)
  | None => []
  end.

(** [api.on(eventName, handler)]: the handler is pushed onto the array of
    the event, a new one when the event has none. *)
Definition on (eventName : string) (h : Handler) (g : Grid) : Grid :=
  match assoc eventName (events g) with
  | Some a => withArrays (<[a := handlersOf eventName g ++ [h]]> (arrays g)) g
  | None =>
      withEvents (mapSet (events g) eventName (length (arrays g)))
        (withArrays (arrays g ++ [[h]]) g)
  end.

(** The function [api.on] returns: the array of the event is replaced by a
    new array without the handler. *)
Definition off (eventName : string) (handlerId : nat) (g : Grid) : Grid :=
  let next := List.filter (fun h => negb (Nat.eqb (h_id h) handlerId))
                (handlersOf eventName g) in
  withEvents (mapSet (events g) eventName (length (arrays g)))
    (withArrays (arrays g ++ [next]) g).

(** A capability call up to the handlers it makes [#emit] run. *)
Definition applyBasic (op : ApiOp) (g : Grid) : Grid :=
  match op with
  | OpRequestRender => render g
  | OpEmit eventName _ => logEmit eventName g
  | OpAddStyles cssText id priority uuid => fst (addStyles cssText id priority uuid g)
  | OpDisposeStyles id => disposeStyles id g
  | OpRegisterDataProvider kind factory => registerDataProvider kind factory g
  | OpSetStatus s => setStatus s g
  | OpSetError message => setError message g
  | OpSetSnapshot snapshot => setSnapshot snapshot g
  | OpSetRows rows => setRows rows g
  | OpUpsertRows rows => upsertRows rows g
  | OpSetTreeExpansion ids => setTreeExpansion ids g
  | OpOn eventName handlerId handler => on eventName (mkHandler handlerId handler) g
  | OpOff eventName handlerId => off eventName handlerId g
  end.

(** The loop [for (const fn of list) fn(detail)] of [#emit], from index [i]
    of the array at address [a]: each handler is called with the detail,
    and each call it makes takes effect at once; a handler that emits runs
    the loop of that event before it goes on. The array is read again at
    every index, so a handler pushed onto it while the loop runs is called
    by the same loop; the handlers of an array that replaced it are not.
    What a handler throws is caught, and the loop goes on: the handler is
    then the calls it made before. [fuel] bounds the calls of handlers that
    one emit brings about: handlers that subscribe or emit without end have
    no result in the source, and their run is cut at the bound. *)
Fixpoint dispatchFrom (fuel : nat) (a i : nat) (detail : Detail) (g : Grid)
    {struct fuel} : Grid :=
  match fuel with
  | O => g
  | S fuel' =>
      match default [] (arrays g !! a) !! i with
      | None => g
      | Some h =>
          let g :=
            foldl (fun g op =>
                     match op with
                     | OpEmit n d =>
                         let g := applyBasic op g in
                         match assoc n (events g) with
                         | Some a' => dispatchFrom fuel' a' 0 d g
                         | None => g
                         end
                     | _ => applyBasic op g
                     end)
              g (h_react h detail (model g)) in
          dispatchFrom fuel' a (S i) detail g
      end
  end.

(** The loop of [#emit(name, detail)] over the array the event has when it
    starts. *)
Definition dispatchAt (fuel : nat) (eventName : string) (detail : Detail)
    (g : Grid) : Grid :=
  match assoc eventName (events g) with
  | Some a => dispatchFrom fuel a 0 detail g
  | None => g
  end.

Definition applyOpAt (fuel : nat) (op : ApiOp) (g : Grid) : Grid :=
  match op with
  | OpEmit n d => dispatchAt fuel n d (applyBasic op g)
  | _ => applyBasic op g
  end.

(** The bound on the calls of handlers that one emit brings about. *)
Definition handlerCalls : nat := 1024.

Definition applyOp (op : ApiOp) (g : Grid) : Grid := applyOpAt handlerCalls op g.

(** [#emit(name, detail)] *)
Definition emit (eventName : string) (detail : Detail) (g : Grid) : Grid :=
  applyOp (OpEmit eventName detail) g.

Definition applyOps (ops : list ApiOp) (g : Grid) : Grid :=
  foldl (fun g op => applyOp op g) g ops.

(** ** Stream messages *)

(** The properties [applySseMessage] reads from an object payload:
    [type] when it is a string, [snapshot] when it is truthy, [rows] when
    it is an array. *)
Record MessageObject := mkMessageObject {
  msg_type : option string;
  msg_snapshot : option Snapshot;
  msg_rows : option (list Row)
}.

Inductive Payload :=
| PayloadOther                      (* falsy, or not an object *)
| PayloadObject (p : MessageObject).

Definition typeIs (p : MessageObject) (t : string) : bool :=
  match msg_type p with
  | Some t' => String.eqb t' t
  | None => false
  end.

Definition applySseMessage (m : GridModel) (payload : Payload) : GridModel :=
  match payload with
  | PayloadOther => m
  | PayloadObject p =>
      match typeIs p "setSnapshot", msg_snapshot p with
      | true, Some s =>
          mkModel (default (m_columns m) (snap_columns s))
            (default [] (snap_rows s))
            (default [] (snap_sort s))
            (default [] (snap_filters s))
            (m_status m) (m_error m)
      | _, _ =>
          match typeIs p "setRows", msg_rows p with
          | true, Some rows => withRows rows m
          | _, _ =>
              match typeIs p "upsertRows", msg_rows p with
              | true, Some rows => withRows (upsert (m_rows m) rows) m
              | _, _ => m
              end
          end
      end
  end.

(** [detail.payload.rows] of the "data" event of a stream message. *)
Definition payloadRows (payload : Payload) : Detail :=
  match payload with
  | PayloadObject p => msg_rows p
  | PayloadOther => None
  end.

(** The data of a stream event: text that [JSON.parse] rejects, or the
    payload it yields. *)
Inductive SseData :=
| DataInvalid
| DataJson (payload : Payload).

(** The handler [onMsg] of the stream provider. *)
Definition onMsg (data : SseData) (g : Grid) : Grid :=
  match data with
  | DataInvalid => g
  | DataJson payload =>
      let m := applySseMessage (model g) payload in
      let m := match m_columns m with
               | [] => withColumns (configColumns g) m
               | _ => m
               end in
      let g := withModel m g in
      let g := setStatus StReady g in
      let g := emit "data" (payloadRows payload) g in
      render g
  end.

(** The handler [es.onerror] of the stream provider. *)
Definition onSseError (g : Grid) : Grid :=
  render (setError "SSE connection error." (setStatus StError g)).

(** ** Data providers *)

Definition withProviders (ps : list ProviderInst) (g : Grid) : Grid :=
  let p := prov g in
  withProv (mkProviderState (dataProviderFactories p) (activeDataProvider p)
              ps (requests p) (providerCycles p)) g.

Definition withRequests (rs : list Request) (g : Grid) : Grid :=
  let p := prov g in
  withProv (mkProviderState (dataProviderFactories p) (activeDataProvider p)
              (providers p) rs (providerCycles p)) g.

Definition withActive (a : option nat) (g : Grid) : Grid :=
  let p := prov g in
  withProv (mkProviderState (dataProviderFactories p) a
              (providers p) (requests p) (providerCycles p)) g.

(** A provider instance is created by the factory. *)
Definition addProvider (inst : ProviderInst) (g : Grid) : Grid :=
  let p := prov g in
  withProv (mkProviderState (dataProviderFactories p) (activeDataProvider p)
              (providers p ++ [inst]) (requests p)
              (providerCycles p ++ [cycle g])) g.

Definition withRequestState (s : RequestState) (r : Request) : Request :=
  mkRequest (req_provider r) (req_awaited r) (req_cycle r) s.

(** [abort?.abort()]: the guarded request, if still in flight, is aborted. *)
Definition abortRequest (abort : option nat) (g : Grid) : Grid :=
  match abort with
  | None => g
  | Some rid =>
      match requests (prov g) !! rid with
      | Some r =>
          match req_state r with
          | ReqPending =>
              withRequests (<[rid := withRequestState ReqAborted r]>
                              (requests (prov g))) g
          | _ => g
          end
      | None => g
      end
  end.

Definition emptySnapshot : Snapshot := mkSnapshot None None None None.

(** [staticDataProvider(api).start(ds)] *)
Definition staticStart (ds : DataSource) (g : Grid) : Grid :=
  let snap := default emptySnapshot (ds_snapshot ds) in
  let g := setSnapshot
             (mkSnapshot (snap_columns snap)
                (Some (default [] (snap_rows snap)))
                (Some (default [] (snap_sort snap)))
                (Some (default [] (snap_filters snap)))) g in
  let g := setStatus StReady g in
  let g := emit "data" (snap_rows snap) g in
  render g.

(** [fetchOnce(ds)] of provider [pid] up to [await fetch(...)]. *)
Definition fetchOnce (pid : nat) (awaited : bool) (g : Grid) : Grid :=
  match providers (prov g) !! pid with
  | Some (FetchInst ds pollTimer abort) =>
      let g := setStatus StLoading g in
      let g := render g in
      let g := abortRequest abort g in
      let rid := length (requests (prov g)) in
      let born := default 0%nat (providerCycles (prov g) !! pid) in
      let g := withRequests
                 (requests (prov g)
                  ++ [mkRequest pid awaited born ReqPending]) g in
      withProviders (<[pid := FetchInst ds pollTimer (Some rid)]>
                       (providers (prov g))) g
  | _ => g
  end.

Inductive FetchOutcome :=
| FetchOk (snap : Snapshot)          (* the snapshot read from the response *)
| FetchFailed (message : string).    (* the message of what was thrown *)

(** [fetchOnce] from [await fetch(...)] on. *)
Definition fetchResume (outcome : FetchOutcome) (g : Grid) : Grid :=
  match outcome with
  | FetchOk snap =>
      let g := setSnapshot
                 (mkSnapshot (snap_columns snap)
                    (Some (default [] (snap_rows snap)))
                    (Some (default [] (snap_sort snap)))
                    (Some (default [] (snap_filters snap)))) g in
      let g := setStatus StReady g in
      let g := emit "data" (snap_rows snap) g in
      render g
  | FetchFailed message =>
      let g := setStatus StError g in
      let g := setError ("Fetch failed: " +:+ message) g in
      render g
  end.

(** [start] of the fetch provider after [await fetchOnce(ds)]: the poll
    timer is armed when [pollMs] is positive. *)
Definition fetchStartResume (pid : nat) (g : Grid) : Grid :=
  match providers (prov g) !! pid with
  | Some (FetchInst ds pollTimer abort) =>
      if 0 <? default 0 (ds_pollMs ds)
      then withProviders (<[pid := FetchInst ds true abort]>
                            (providers (prov g))) g
      else g
  | _ => g
  end.

(** [stop()] of provider [pid]. *)
Definition stopProvider (pid : nat) (g : Grid) : Grid :=
  match providers (prov g) !! pid with
  | Some (FetchInst ds pollTimer abort) =>
      let g := abortRequest abort g in
      withProviders (<[pid := FetchInst ds false None]> (providers (prov g))) g
  | Some (SseInst es) =>
      withProviders (<[pid := SseInst false]> (providers (prov g))) g
  | _ => g
  end.

Definition stopDataProvider (g : Grid) : Grid :=
  let g := match activeDataProvider (prov g) with
           | Some pid => stopProvider pid g
           | None => g
           end in
  withActive None g.

(** [#startDataProvider]; the flag tells whether it is suspended at
    [await this.#activeDataProvider.start(ds)]. *)
Definition startDataProvider (g : Grid) : Grid * bool :=
  match match config g with Some cfg => spec_data cfg | None => None end with
  | None =>
      (setError "No data source configured." (setStatus StError g), false)
  | Some ds =>
      let kind := JS.trim (JS.optStrOr (ds_kind ds) "") in
      if String.eqb kind "" then
        (setError "Data source kind missing." (setStatus StError g), false)
      else
        match assoc kind (dataProviderFactories (prov g)) with
        | None =>
            (setError ("No data provider registered for kind: " +:+ kind)
               (setStatus StError g), false)
        | Some factory =>
            let g := stopDataProvider g in
            let pid := length (providers (prov g)) in
            let inst := match factory with
                        | ProvStatic => StaticInst
                        | ProvFetch => FetchInst ds false None
                        | ProvSse => SseInst false
                        end in
            let g := withActive (Some pid) (addProvider inst g) in
            match factory with
            | ProvStatic => (staticStart ds g, false)
            | ProvFetch =>
                if JS.truthyStr (ds_url ds) then (fetchOnce pid true g, true)
                else (setError "Fetch data provider missing url."
                        (setStatus StError g), false)
            | ProvSse =>
                if JS.truthyStr (ds_url ds) then
                  let g := setStatus StLoading g in
                  let g := render g in
                  (withProviders (<[pid := SseInst true]> (providers (prov g))) g,
                   false)
                else (setError "SSE data provider missing url."
                        (setStatus StError g), false)
            end
        end
  end.

(** ** Plugin pipeline *)

Record LoadedPlugin := mkLoadedPlugin {
  lp_id : string;
  lp_priority : Z;
  lp_order : option Z;
  lp_factory : list ApiOp;
  lp_disposer : option (list ApiOp)
}.

(** [modernThemeCss()]: a fixed text (abridged). *)
Definition modernThemeCss : string := ":host { --ng-radius: 10px; }".

Definition builtIns : list LoadedPlugin :=
  [ {| lp_id := "presentation:theme:modern";
       lp_priority := -1000;
       lp_order := None;
       lp_factory := [OpAddStyles modernThemeCss (Some "theme:modern") (Some 0) ""];
       lp_disposer := Some [OpDisposeStyles "theme:modern"] |} ].

Fixpoint loadExternalPluginsFrom (order : Z) (pluginRefs : list PluginRef)
    : list LoadedPlugin :=
  match pluginRefs with
  | [] => []
  | ref :: rest =>
      match ref_moduleUrl ref with
      | Some url =>
          if nonEmpty url then
            match ref_import ref with
            | Some mod_ =>
                {| lp_id := JS.optStrOr (ref_id ref) (JS.optStrOr (mod_id mod_) url);
                   lp_priority :=
                     match ref_priority ref with
                     | Some p => p
                     | None => default 0 (mod_priority mod_)
                     end;
                   lp_order := Some order;
                   lp_factory := mod_factory mod_;
                   lp_disposer := mod_disposer mod_ |}
                :: loadExternalPluginsFrom (order + 1) rest
            | None => loadExternalPluginsFrom order rest
            end
          else loadExternalPluginsFrom order rest
      | None => loadExternalPluginsFrom order rest
      end
  end.

Definition loadExternalPlugins (pluginRefs : list PluginRef) : list LoadedPlugin :=
  loadExternalPluginsFrom 0 pluginRefs.

Definition pluginBefore (a b : LoadedPlugin) : bool :=
  (lp_priority a <? lp_priority b)
  || ((lp_priority a =? lp_priority b)
      && ((default 0 (lp_order a) <? default 0 (lp_order b))
          || ((default 0 (lp_order a) =? default 0 (lp_order b))
              && match JS.localeCompare (lp_id a) (lp_id b) with
                 | Lt => true
                 | _ => false
                 end))).

Definition initPlugin (g : Grid) (p : LoadedPlugin) : Grid :=
  let g := applyOps (lp_factory p) g in
  match lp_disposer p with
  | Some d => withPluginDisposers (pluginDisposers g ++ [d]) g
  | None => g
  end.

(** ** Initialization *)

(** [loadExternalPlugins] has a module to import: some reference names
    one. *)
Definition importsPending (cfg : GridSpec) : bool :=
  existsb (fun ref => JS.truthyStr (ref_moduleUrl ref)) (spec_plugins cfg).

(** [#initializeIfNeeded] from [await loadExternalPlugins(pluginRefs)] on,
    run until it completes or suspends at the first request of a fetch
    provider. [cfg] is the local variable of the function; the data source
    is read from [this.#config]. *)
Definition initResume (cfg : GridSpec) (g : Grid) : Grid :=
  let externals := loadExternalPlugins (spec_plugins cfg) in
  let plugins := sortBy pluginBefore (builtIns ++ externals) in
  let g := foldl initPlugin g plugins in
  let g := ensureBaseSheet g in
  let '(g, suspended) := startDataProvider g in
  if suspended then g else render g.

(** [#initializeIfNeeded(force)], run until it completes or suspends, at
    the import of the plugin modules or at the first request of a fetch
    provider. [#resolveConfig] awaits nothing: the continuation of
    [await this.#resolveConfig()] is queued when it is called, ahead of any
    reinitialization, and is taken with the call. [#initDone] is set
    before that: while an initialization is suspended, a change of an
    attribute reinitializes. *)
Definition initializeIfNeeded (force : bool) (g : Grid) : Grid :=
  if initDone g && negb force then g
  else
    let g := withInitDone true g in
    let g := setStatus StLoading g in
    match resolveConfig (host g) with
    | None =>
        render (setError "Missing or invalid grid config." (setStatus StError g))
    | Some cfg =>
        let g := withConfig (Some cfg) g in
        let g := registerDataProvider "static" ProvStatic g in
        let g := registerDataProvider "fetch" ProvFetch g in
        let g := registerDataProvider "sse" ProvSse g in
        if importsPending cfg
        then withInits (inits g ++ [mkInitTask cfg (cycle g) true]) g
        else initResume cfg g
    end.

(** [#reinitialize] *)
Definition reinitialize (g : Grid) : Grid :=
  let g := stopDataProvider g in
  let disposers := pluginDisposers g in
  let g := withPluginDisposers [] g in
  let g := foldl (fun g d => applyOps d g) g disposers in
  let st := styles g in
  let g := withStyles
             (mkStyleState [] (sheetBase st) (sheetTheme st) (sheetUser st)
                (userCss st) (adoptedStyleSheets st) (styleFallbackEls st)) g in
  let p := prov g in
  let g := withProv (mkProviderState [] (activeDataProvider p) (providers p)
                       (requests p) (providerCycles p)) g in
  let g := withEvents [] g in
  let g := withTreeExpandedIds [] g in
  let g := withConfig None g in
  let g := withStatusLog (statusLog g ++ [StInit]) (withModel emptyModel g) in
  let g := withVirtualizationState (mkVState 0 0) g in
  let g := withCycle (S (cycle g)) g in
  initializeIfNeeded true g.

(** ** Events

    Each event is one run-to-completion step of the element: a task of the
    event loop with the microtasks it queues. [EvPluginsLoaded tid] is the
    continuation of the initialization [tid] after
    [await loadExternalPlugins(pluginRefs)]; [EvFetchSettled rid outcome]
    is the continuation of [fetchOnce] after [await fetch(...)]. Neither
    reads the cycle that started it. *)

Inductive Event :=
| EvConnected
| EvAttributeChanged (h : Host)
| EvFetchSettled (rid : nat) (outcome : FetchOutcome)
| EvPollTick (pid : nat)
| EvSseMessage (pid : nat) (data : SseData)
| EvSseError (pid : nat)
| EvPlugin (op : ApiOp)
| EvSetThemeCss (cssText : string)
| EvPluginsLoaded (tid : nat).

Definition isSome {A} (o : option A) : bool :=
  match o with Some _ => true | None => false end.

(** [step e g] is [None] when [e] cannot occur in [g]. *)
Definition step (e : Event) (g : Grid) : option Grid :=
  match e with
  | EvConnected => Some (initializeIfNeeded false g)
  | EvAttributeChanged h =>
      let g := withHost h g in
      Some (if initDone g then reinitialize g else g)
  | EvFetchSettled rid outcome =>
      match requests (prov g) !! rid with
      | Some r =>
          let enabled :=
            match req_state r, outcome with
            | ReqPending, _ => true
            | ReqAborted, FetchFailed _ => true
            | _, _ => false
            end in
          if enabled then
            let g := withRequests (<[rid := withRequestState ReqSettled r]>
                                     (requests (prov g))) g in
            let g := fetchResume outcome g in
            Some (if req_awaited r
                  then render (fetchStartResume (req_provider r) g)
                  else g)
          else None
      | None => None
      end
  | EvPollTick pid =>
      match providers (prov g) !! pid with
      | Some (FetchInst _ true _) => Some (fetchOnce pid false g)
      | _ => None
      end
  | EvSseMessage pid data =>
      match providers (prov g) !! pid with
      | Some (SseInst true) => Some (onMsg data g)
      | _ => None
      end
  | EvSseError pid =>
      match providers (prov g) !! pid with
      | Some (SseInst true) => Some (onSseError g)
      | _ => None
      end
  | EvPlugin op =>
      if isSome (config g) then Some (applyOp op g) else None
  | EvSetThemeCss cssText => Some (setThemeCss cssText g)
  | EvPluginsLoaded tid =>
      match inits g !! tid with
      | Some t =>
          if it_pending t then
            let g := withInits (<[tid := mkInitTask (it_cfg t) (it_cycle t) false]>
                                  (inits g)) g in
            Some (initResume (it_cfg t) g)
          else None
      | None => None
      end
  end.

Fixpoint run (events : list Event) (g : Grid) : option Grid :=
  match events with
  | [] => Some g
  | e :: events' =>
      match step e g with
      | Some g' => run events' g'
      | None => None
      end
  end.

(** States a grid created on host [h] can be in. *)
Definition reachable (h : Host) (g : Grid) : Prop :=
  exists events, run events (newGrid h) = Some g.

(** ** Vocabulary of the statements *)

(** The last row of [l] whose id is [k]. *)
Fixpoint lastWithId (k : string) (l : list Row) : option Row :=
  match l with
  | [] => None
  | r :: l' =>
      match lastWithId k l' with
      | Some x => Some x
      | None => if String.eqb (row_id r) k then Some r else None
      end
  end.

(** The ids of [l] that are not in [seen], each once, in the order of
    their first occurrence. *)
Fixpoint newIds (seen : list string) (l : list string) : list string :=
  match l with
  | [] => []
  | k :: l' =>
      if bool_decide (k ∈ seen) then newIds seen l'
      else k :: newIds (seen ++ [k]) l'
  end.

(** The grid [#render] has when it reaches the status test. *)
Definition styled (g : Grid) : Grid :=
  applyStylePipeline (ensureBaseSheet (withRenders (S (renders g)) g)).

(** The ordered composition of the style pipeline for the fragments, the
    user rules and the host attributes of [g]: base rules, the (empty)
    theme slot, the plugin fragments by (priority, id), the user rules. *)
Definition composedCss (g : Grid) : list string :=
  if attr_data_unstyled (host g) then []
  else
    let ordered := sortBy styleBefore (pluginStyleSheets (styles g)) in
    if can_adopt_sheets (host g) then
      [baseStyles] ++ flat_map (fun p => optList (ps_sheet p)) ordered
      ++ (if nonEmpty (userCss (styles g)) then [userCss (styles g)] else [])
    else
      List.filter nonEmpty
        ([baseStyles; themeCssText] ++ map ps_cssText ordered
         ++ [userCss (styles g)]).

(** The test the disposer of [addStyles] keeps fragments by. *)
Definition otherThan (id : string) (x : PluginStyle) : bool :=
  negb (String.eqb (ps_id x) id).

(** A payload one of the three branches of [applySseMessage] accepts. *)
Definition recognized (payload : Payload) : bool :=
  match payload with
  | PayloadOther => false
  | PayloadObject p =>
      (typeIs p "setSnapshot" && isSome (msg_snapshot p))
      || (typeIs p "setRows" && isSome (msg_rows p))
      || (typeIs p "upsertRows" && isSome (msg_rows p))
  end.

Definition statusEqb (a b : Status) : bool :=
  match a, b with
  | StInit, StInit | StLoading, StLoading
  | StReady, StReady | StError, StError => true
  | _, _ => false
  end.

(** The transitions the specification lists: init to loading, loading to
    ready or error, ready or error to loading; the reset to init that
    starts a reinitialization; an assignment of the current status is no
    transition. *)
Definition listedTransition (a b : Status) : bool :=
  match a, b with
  | StInit, StLoading => true
  | StLoading, StReady | StLoading, StError => true
  | StReady, StLoading | StError, StLoading => true
  | StReady, StInit | StError, StInit | StLoading, StInit => true
  | _, _ => statusEqb a b
  end.

Fixpoint onlyListedTransitions (l : list Status) : bool :=
  match l with
  | a :: (b :: _) as rest => listedTransition a b && onlyListedTransitions rest
  | _ => true
  end.

(** No [Init] of the sequence is followed by anything but [Loading]. *)
Fixpoint leavesInitThroughLoading (l : list Status) : bool :=
  match l with
  | [] => true
  | x :: rest =>
      match x, rest with
      | StInit, StLoading :: _ => leavesInitThroughLoading rest
      | StInit, _ :: _ => false
      | _, _ => leavesInitThroughLoading rest
      end
  end.

(** Calls that do not assign the status, and that subscribe only handlers
    all of whose calls are such calls, whatever they are called with. *)
Fixpoint quietOp (op : ApiOp) : Prop :=
  match op with
  | OpSetStatus _ => False
  | OpOn _ _ handler =>
      forall detail m,
        (fix all (ops : list ApiOp) : Prop :=
           match ops with
           | [] => True
           | o :: ops' => quietOp o /\ all ops'
           end) (handler detail m)
  | _ => True
  end.

Definition quietOps (ops : list ApiOp) : Prop := Forall quietOp ops.

Definition quietHandler (h : Handler) : Prop :=
  forall detail m, quietOps (h_react h detail m).

Definition quietModule (m : PluginModule) : Prop :=
  quietOps (mod_factory m)
  /\ match mod_disposer m with
     | Some d => quietOps d
     | None => True
     end.

Definition quietPlugin (p : LoadedPlugin) : Prop :=
  quietOps (lp_factory p)
  /\ match lp_disposer p with
     | Some d => quietOps d
     | None => True
     end.

(** No plugin that [cfg] refers to assigns the status. *)
Definition quietSpec (cfg : GridSpec) : Prop :=
  Forall (fun ref => match ref_import ref with
                     | Some m => quietModule m
                     | None => True
                     end) (spec_plugins cfg).

(** No plugin of the configuration resolved on [h] assigns the status. *)
Definition quietHost (h : Host) : Prop :=
  match resolveConfig h with
  | Some cfg => quietSpec cfg
  | None => True
  end.

Definition quietEvent (e : Event) : Prop :=
  match e with
  | EvPlugin op => quietOp op
  | EvAttributeChanged h => quietHost h
  | _ => True
  end.

Definition quietDisposers (d : list (list ApiOp)) : Prop := Forall quietOps d.

Definition quietArrays (a : list (list Handler)) : Prop :=
  Forall (Forall quietHandler) a.

Definition quietInits (t : list InitTask) : Prop :=
  Forall (fun task => quietSpec (it_cfg task)) t.

(** What the status invariant reads from a grid. *)
Definition statusView (g : Grid)
    : Status * list Status * list (list ApiOp) * Host
      * list (list Handler) * list InitTask :=
  (m_status (model g), statusLog g, pluginDisposers g, host g, arrays g,
   inits g).

(** [g'] has the status, the record of assignments, the disposers, the
    host and the suspended initializations of [g], and quiet handlers if
    [g] has. *)
Definition keepsStatus (g g' : Grid) : Prop :=
  m_status (model g') = m_status (model g) /\
  statusLog g' = statusLog g /\
  pluginDisposers g' = pluginDisposers g /\
  host g' = host g /\
  inits g' = inits g /\
  (quietArrays (arrays g) -> quietArrays (arrays g')).

(** The record of assignments ends with the current status, no [Init] in
    it is followed by anything but [Loading], and no plugin known to the
    grid assigns the status. *)
Definition consistent (g : Grid) : Prop :=
  leavesInitThroughLoading (StInit :: statusLog g) = true /\
  last (StInit :: statusLog g) = Some (m_status (model g)) /\
  quietDisposers (pluginDisposers g) /\
  quietHost (host g) /\
  quietArrays (arrays g) /\
  quietInits (inits g).

(** [g'] has the provider instances, the requests, the active provider,
    the suspended initializations and the cycle of [g]. *)
Definition keepsWork (g g' : Grid) : Prop :=
  providers (prov g') = providers (prov g) /\
  requests (prov g') = requests (prov g) /\
  activeDataProvider (prov g') = activeDataProvider (prov g) /\
  inits g' = inits g /\
  cycle g' = cycle g.

(** [g'] has the provider instances, the requests and the suspended
    initializations of [g], each as it was, and possibly more of them; it
    is in the same cycle. *)
Definition extendsWork (g g' : Grid) : Prop :=
  providers (prov g) `prefix_of` providers (prov g') /\
  requests (prov g) `prefix_of` requests (prov g') /\
  inits g `prefix_of` inits g' /\
  cycle g' = cycle g.

Definition underway (g : Grid) : Prop :=
  consistent g /\ m_status (model g) <> StInit.

(** A grid that has not started initializing. *)
Definition pristine (g : Grid) : Prop :=
  initDone g = false /\ config g = None /\
  providers (prov g) = [] /\ requests (prov g) = [] /\ inits g = [].

(** The invariant of a run: the grid is consistent, and its status is
    [Init] only before it starts initializing. *)
Definition steady (g : Grid) : Prop :=
  consistent g /\ (m_status (model g) = StInit -> pristine g).

(** Every cell of the header section of a table and every row of its body
    sections, whichever row or section they are in. *)
Definition allHeaderCells (table : HTMLTable) : list TableCell :=
  flat_map tr_cells (default [] (tHead table)).

Definition allBodyRows (table : HTMLTable) : list TableRow :=
  concat (tBodies table).

(** *** Sample tables *)

Definition plainRow (texts : list string) : TableRow :=
  {| tr_cells := map mkTableCell texts; tr_data_row_id := None |}.

(** A table with two header rows, two body sections, and a body row with
    more cells than the first header row. *)
Definition groupedTable : HTMLTable :=
  {| tHead := Some [plainRow ["Name"]; plainRow ["First"; "Last"]];
     tBodies := [ [plainRow ["Ada"; "Lovelace"]];
                  [plainRow ["Alan"]; plainRow ["Grace"]] ] |}.

(** *** Sample hosts *)

Definition feedColumns : list Column := [mkColumn "id" "ID" None None].

(** A grid whose inline configuration names a stream source. *)
Definition streamHost : Host :=
  mkHost None None None None None false
    (Some (Some (mkGridSpec "feed" None None (Some feedColumns)
                   (Some (mkDataSource (Some "sse") None (Some "/events") None))
                   [])))
    None None [] [] "" true.

(** A grid whose inline configuration names a polled source. *)
Definition pollHost : Host :=
  mkHost None None None None None false
    (Some (Some (mkGridSpec "feed" None None (Some feedColumns)
                   (Some (mkDataSource (Some "fetch") None (Some "/rows")
                            (Some 5000)))
                   [])))
    None None [] [] "" true.

Definition staleRows : list Row := [mkRow "old" [("id", CellStr "old")] []].

Definition adaRow : Row :=
  mkRow "1" [("id", CellStr "1"); ("name", CellStr "Ada")] [].

(** A grid whose inline configuration carries a static snapshot. *)
Definition staticHost : Host :=
  mkHost None None None None None false
    (Some (Some (mkGridSpec "people" None None
                   (Some [mkColumn "id" "ID" None None;
                          mkColumn "name" "Name" None None])
                   (Some (mkDataSource (Some "static")
                            (Some (mkSnapshot None (Some [adaRow]) None None))
                            None None))
                   [])))
    None None [] [] "" true.

(** *** Sample handlers *)

(** [onDataSnapshot] of the sort plugin of [grid-plugins-typical.js], the
    handler it subscribes to "data", while no column is sorted: the rows
    of the detail, or else the rows of the model, are set as the rows,
    announced as sorted, and rendered. *)
Definition onDataSnapshot (detail : Detail) (m : GridModel) : list ApiOp :=
  let rowsToRender := default (m_rows m) detail in
  [OpSetRows (Some rowsToRender); OpEmit "grid:sorted" (Some rowsToRender);
   OpRequestRender].

(** A plugin module whose factory subscribes [onDataSnapshot] to "data"
    and returns the disposer that unsubscribes it. *)
Definition dataPlugin : PluginModule :=
  {| mod_id := Some "functionality:sort";
     mod_priority := None;
     mod_factory := [OpOn "data" 0 onDataSnapshot];
     mod_disposer := Some [OpOff "data" 0] |}.

(** A grid whose inline configuration names a stream source and loads
    [dataPlugin]. *)
Definition sortedStreamHost : Host :=
  mkHost None None None None None false
    (Some (Some (mkGridSpec "feed" None None
                   (Some [mkColumn "id" "ID" None None])
                   (Some (mkDataSource (Some "sse") None (Some "/events") None))
                   [mkPluginRef None None (Some "./sort.js") (Some dataPlugin)])))
    None None [] [] "" true.

Definition threeRows : list Row :=
  [mkRow "1" [] []; mkRow "2" [] []; mkRow "3" [] []].

(** A static grid of three rows whose configuration sets
    [ui.virtualization] to [v]. *)
Definition virtualHost (v : VirtualizationUi) : Host :=
  mkHost None None None None None false
    (Some (Some (mkGridSpec "rows"  None
                   (Some (mkUi false None false (Some v)))
                   (Some feedColumns)
                   (Some (mkDataSource (Some "static")
                            (Some (mkSnapshot None (Some threeRows) None None))
                            None None))
                   [])))
    None None [] [] "" true.

(** [{ rowThreshold: 2 }] and [{ enabled: false, rowThreshold: 2 }] *)
Definition lowThreshold : VirtualizationUi :=
  mkVirtualizationUi None None None None None None None (Some 2) None.

Definition switchedOff : VirtualizationUi :=
  mkVirtualizationUi (Some false) None None None None None None (Some 2) None.

(** A polled grid is reinitialized while its first request is in flight;
    the request, aborted by the reinitialization, then fails. *)
Definition abortedEvents : list Event :=
  [ EvConnected; EvAttributeChanged pollHost ].

Definition abortFailure : FetchOutcome :=
  FetchFailed "The operation was aborted.".

(** A grid with a plugin is reinitialized while the import of the plugin
    module is awaited. *)
Definition reloadEvents : list Event :=
  [ EvConnected; EvAttributeChanged sortedStreamHost ].

(** * Properties *)

(** ** Strings *)

Section StringFacts.

Lemma append_eq_nil (a b : string) : a +:+ b = "" -> b = "".
Proof. destruct a; simpl; [auto | discriminate]. Qed.

Lemma trimEnd_visible (s : string) :
  s <> "" -> JS.allChars (fun c => negb (JS.isSpace c)) s = true ->
  JS.trimEnd s = s.
Proof.
  induction s as [|c s IH]; intros Hne Hall; [congruence|].
  simpl in Hall. apply andb_prop in Hall as [Hc Hs].
  simpl. destruct s as [|d s'].
  - simpl. apply negb_true_iff in Hc. now rewrite Hc.
  - rewrite IH by (congruence || assumption). reflexivity.
Qed.

Lemma trimEnd_app (a b : string) :
  b <> "" -> JS.trimEnd b = b -> JS.trimEnd (a +:+ b) = a +:+ b.
Proof.
  intros Hne Hb. induction a as [|c a IH]; [exact Hb|].
  change (JS.trimEnd (String c (a +:+ b)) = String c (a +:+ b)).
  simpl. rewrite IH. destruct (a +:+ b) eqn:E; [|reflexivity].
  apply append_eq_nil in E. congruence.
Qed.

Lemma string_of_uint_digits (d : Decimal.uint) :
  JS.allChars JS.isDigit (NilEmpty.string_of_uint d) = true.
Proof. induction d; simpl; auto. Qed.

Lemma allChars_weaken (P Q : ascii -> bool) (s : string) :
  (forall c, P c = true -> Q c = true) ->
  JS.allChars P s = true -> JS.allChars Q s = true.
Proof.
  intros HPQ. induction s as [|c s IH]; simpl; [auto|].
  intros H. apply andb_prop in H as [Hc Hs].
  rewrite (HPQ _ Hc), (IH Hs). reflexivity.
Qed.

Lemma digit_not_space (c : ascii) :
  JS.isDigit c = true -> negb (JS.isSpace c) = true.
Proof.
  unfold JS.isDigit, JS.isSpace. intros H.
  apply andb_prop in H as [H1 H2].
  apply Nat.leb_le in H1. apply Nat.leb_le in H2.
  apply negb_true_iff.
  repeat (apply orb_false_intro); apply Nat.eqb_neq; lia.
Qed.

Lemma to_uint_nonnil (n : nat) : Nat.to_uint n <> Decimal.Nil.
Proof.
  rewrite <- (Unsigned.of_to n) at 1. rewrite Unsigned.to_of.
  apply DecimalFacts.unorm_nonnil.
Qed.

Lemma natToString_nonempty (n : nat) : JS.natToString n <> "".
Proof.
  unfold JS.natToString. pose proof (to_uint_nonnil n) as H.
  destruct (Nat.to_uint n); simpl; congruence.
Qed.

Lemma natToString_inj (n m : nat) :
  JS.natToString n = JS.natToString m -> n = m.
Proof.
  unfold JS.natToString. intros H.
  apply Unsigned.to_uint_inj.
  assert (Some (Nat.to_uint n) = Some (Nat.to_uint m)) as E
    by (rewrite <- !NilEmpty.usu; now rewrite H).
  now inversion E.
Qed.

Lemma trimEnd_natToString (n : nat) :
  JS.trimEnd (JS.natToString n) = JS.natToString n.
Proof.
  apply trimEnd_visible; [apply natToString_nonempty|].
  apply allChars_weaken with (P := JS.isDigit); [apply digit_not_space|].
  apply string_of_uint_digits.
Qed.

(** The default title needs no trimming. *)
Lemma trim_default_title (n : nat) :
  JS.trim ("Col " +:+ JS.natToString n) = "Col " +:+ JS.natToString n.
Proof.
  unfold JS.trim.
  change (JS.trimStart ("Col " +:+ JS.natToString n))
    with ("Col " +:+ JS.natToString n).
  apply trimEnd_app; [apply natToString_nonempty | apply trimEnd_natToString].
Qed.

Lemma key_inj (n m : nat) :
  "c" +:+ JS.natToString n = "c" +:+ JS.natToString m -> n = m.
Proof. simpl. intros H. inversion H. now apply natToString_inj. Qed.

End StringFacts.

(** ** Legacy table upgrade *)

Section TableUpgrade.

Lemma objGet_objSet_eq (o : Cells) (k : string) (v : CellValue) :
  objGet (objSet o k v) k = Some v.
Proof.
  induction o as [|[k' v'] o IH]; simpl.
  - now rewrite String.eqb_refl.
  - destruct (String.eqb k' k) eqn:E; simpl; rewrite E; auto.
Qed.

Lemma objGet_objSet_ne (o : Cells) (k k' : string) (v : CellValue) :
  k <> k' -> objGet (objSet o k' v) k = objGet o k.
Proof.
  intros Hne. induction o as [|[k0 v0] o IH]; simpl.
  - destruct (String.eqb k' k) eqn:E; [|reflexivity].
    apply String.eqb_eq in E. congruence.
  - destruct (String.eqb k0 k') eqn:E0; simpl.
    + apply String.eqb_eq in E0. subst k0.
      destruct (String.eqb k' k) eqn:E; [|reflexivity].
      apply String.eqb_eq in E. congruence.
    + now rewrite IH.
Qed.

Variable tds : list TableCell.

Let setCell (cells : Cells) (ic : nat * Column) : Cells :=
  objSet cells (col_key (snd ic)) (CellStr (cellText tds (fst ic))).

Lemma objGet_foldl_other (l : list (nat * Column)) (o : Cells) (k : string) :
  (forall ic, ic ∈ l -> col_key (snd ic) <> k) ->
  objGet (foldl setCell o l) k = objGet o k.
Proof.
  revert o. induction l as [|x l IH]; intros o Hk; simpl; [reflexivity|].
  rewrite IH by (intros ic Hic; apply Hk; now right).
  unfold setCell. apply objGet_objSet_ne.
  intros E. apply (Hk x); [left | now symmetry].
Qed.

Lemma objGet_foldl_set (l : list (nat * Column)) (o : Cells) (j : nat)
    (ic : nat * Column) :
  (forall j1 j2 x1 x2, l !! j1 = Some x1 -> l !! j2 = Some x2 ->
     col_key (snd x1) = col_key (snd x2) -> j1 = j2) ->
  l !! j = Some ic ->
  objGet (foldl setCell o l) (col_key (snd ic))
  = Some (CellStr (cellText tds (fst ic))).
Proof.
  revert o j. induction l as [|x l IH]; intros o j Hinj Hj; [discriminate|].
  destruct j as [|j]; simpl in Hj.
  - inversion Hj; subst x. simpl.
    rewrite objGet_foldl_other; [apply objGet_objSet_eq|].
    intros ic' Hin E. apply list_elem_of_lookup in Hin as [j' Hj'].
    specialize (Hinj (S j') 0%nat ic' ic Hj' eq_refl E). discriminate.
  - simpl. apply (IH _ j); [|assumption].
    intros j1 j2 x1 x2 H1 H2 E.
    specialize (Hinj (S j1) (S j2) x1 x2 H1 H2 E). lia.
Qed.

End TableUpgrade.

Lemma cellsOfRow_get (hs tds : list TableCell) (i : nat) :
  (i < length hs)%nat ->
  objGet (cellsOfRow (imap columnOfHeader hs) tds) ("c" +:+ JS.natToString (i + 1))
  = Some (CellStr (cellText tds i)).
Proof.
  intros Hi. apply lookup_lt_is_Some_2 in Hi as [th Hth].
  unfold cellsOfRow.
  pose (ic := (i, columnOfHeader i th)).
  change ("c" +:+ JS.natToString (i + 1)) with (col_key (snd ic)).
  change (cellText tds i) with (cellText tds (fst ic)).
  apply objGet_foldl_set with (j := i).
  - intros j1 j2 x1 x2 H1 H2 E.
    rewrite list_lookup_imap, list_lookup_imap in H1, H2.
    destruct (hs !! j1) as [h1|]; [|discriminate].
    destruct (hs !! j2) as [h2|]; [|discriminate].
    simpl in H1, H2. inversion H1; inversion H2; subst x1 x2.
    simpl in E. apply key_inj in E. lia.
  - rewrite list_lookup_imap, list_lookup_imap, Hth. reflexivity.
Qed.

(** A row of the upgrade has a cell under the keys of the columns only. *)
Lemma cellsOfRow_keys (hs tds : list TableCell) (k : string) (v : CellValue) :
  objGet (cellsOfRow (imap columnOfHeader hs) tds) k = Some v ->
  exists i, (i < length hs)%nat /\ k = "c" +:+ JS.natToString (i + 1).
Proof.
  unfold cellsOfRow. intros Hget.
  set (l := imap (fun i col => (i, col)) (imap columnOfHeader hs)) in *.
  destruct (decide (Exists (fun ic : nat * Column => col_key (snd ic) = k) l))
    as [Hex|Hno].
  - apply Exists_exists in Hex as ([i c] & Hin & Hk).
    apply list_elem_of_lookup in Hin as [j Hj]. unfold l in Hj.
    rewrite list_lookup_imap, list_lookup_imap in Hj.
    destruct (hs !! j) as [th|] eqn:Hth; [|discriminate].
    simpl in Hj. inversion Hj; subst i c. exists j. split.
    + apply lookup_lt_Some in Hth. exact Hth.
    + symmetry. exact Hk.
  - rewrite objGet_foldl_other in Hget; [discriminate|].
    intros ic Hic E. apply Hno, Exists_exists. now exists ic.
Qed.

(** The title the upgrade gives to header cell [i]. *)
Lemma title_of_header (i : nat) (th : TableCell) :
  col_title (columnOfHeader i th)
  = if String.eqb (textContent th) ""
    then "Col " +:+ JS.natToString (i + 1)
    else JS.trim (textContent th).
Proof.
  unfold columnOfHeader, JS.strOr. simpl.
  destruct (String.eqb (textContent th) ""); [apply trim_default_title | reflexivity].
Qed.

(** The default title stands in for an empty header text only: a header
    of blanks is not empty, and its title is its trimmed text, which is. *)
Example blank_header_title :
  col_title (columnOfHeader 0 (mkTableCell "  ")) = "".
Proof. reflexivity. Qed.

(** C8, as stated, fails. [groupedTable] has three header cells and three
    body rows, yet its upgrade has one column and one row: the second
    header row and the second body section are not read, and the text
    "Lovelace" of the row that is read is dropped because the first header
    row has no second cell. *)
Lemma table_upgrade_counterexample :
  length (allHeaderCells groupedTable) = 3%nat /\
  length (allBodyRows groupedTable) = 3%nat /\
  exists columns row,
    spec_columns (gridSpecFromTable groupedTable (mkHints "g" None))
      = Some columns /\
    spec_data (gridSpecFromTable groupedTable (mkHints "g" None))
      = Some (mkDataSource (Some "static")
                (Some (mkSnapshot (Some columns) (Some [row]) None None))
                None None) /\
    length columns = 1%nat /\
    row_cells row = [("c1", CellStr "Ada")].
Proof.
  split; [reflexivity|]. split; [reflexivity|].
  eexists _, _. split; [reflexivity|]. split; [reflexivity|].
  split; reflexivity.
Qed.

(** C8, amended. The upgrade reads the first row of the header section and
    the first body section of the table: with H the number of cells of
    that row and R the number of rows of that section, the spec has exactly
    H columns and exactly R rows, carried by a "static" data source. These
    are all the header cells and all the body rows when the table has one
    header row and one body section. Column [i] has the trimmed header
    text as its title, or "Col i+1" when the header text is empty; row [j]
    takes its id from [data-row-id], or is named [<gridId>__r<j+1>] when
    that attribute is missing or empty; the cell of row [j] under column
    [i] is the trimmed text of the [i]-th cell of that row (the empty text
    when the row has no such cell), and the row has no other cells. *)
Theorem gridSpecFromTable_shape (table : HTMLTable) (hints : Hints) :
  exists columns rows,
    spec_columns (gridSpecFromTable table hints) = Some columns /\
    spec_data (gridSpecFromTable table hints)
      = Some (mkDataSource (Some "static")
                (Some (mkSnapshot (Some columns) (Some rows) None None))
                None None) /\
    length columns = length (headCells table) /\
    length rows = length (bodyRows table) /\
    (forall headRow, tHead table = Some [headRow] ->
       headCells table = allHeaderCells table) /\
    (forall section, tBodies table = [section] ->
       bodyRows table = allBodyRows table) /\
    (forall i th, headCells table !! i = Some th ->
       exists c, columns !! i = Some c /\
         col_key c = "c" +:+ JS.natToString (i + 1) /\
         col_title c = if String.eqb (textContent th) ""
                       then "Col " +:+ JS.natToString (i + 1)
                       else JS.trim (textContent th)) /\
    (forall j tr, bodyRows table !! j = Some tr ->
       exists r, rows !! j = Some r /\
         row_id r = (if JS.truthyStr (tr_data_row_id tr)
                     then default "" (tr_data_row_id tr)
                     else hint_id hints +:+ "__r" +:+ JS.natToString (j + 1)) /\
         (forall i, (i < length (headCells table))%nat ->
            objGet (row_cells r) ("c" +:+ JS.natToString (i + 1))
            = Some (CellStr (JS.trim (match tr_cells tr !! i with
                                      | Some td => textContent td
                                      | None => ""
                                      end)))) /\
         (forall k v, objGet (row_cells r) k = Some v ->
            exists i, (i < length (headCells table))%nat /\
                      k = "c" +:+ JS.natToString (i + 1))).
Proof.
  eexists _, _. split; [reflexivity|]. split; [reflexivity|].
  split; [apply length_imap|]. split; [apply length_imap|].
  split; [|split; [|split]].
  - intros headRow Hh. unfold headCells, allHeaderCells. rewrite Hh. simpl.
    now rewrite app_nil_r.
  - intros section Hb. unfold bodyRows, allBodyRows. rewrite Hb. simpl.
    now rewrite app_nil_r.
  - intros i th Hth. exists (columnOfHeader i th).
    rewrite list_lookup_imap, Hth. split; [reflexivity|].
    split; [reflexivity | apply title_of_header].
  - intros j tr Htr.
    exists (rowOfTr hints (imap columnOfHeader (headCells table)) j tr).
    rewrite list_lookup_imap, Htr. split; [reflexivity|]. split; [|split].
    + unfold rowOfTr, JS.optStrOr, JS.strOr, JS.truthyStr. simpl.
      destruct (tr_data_row_id tr) as [s|]; simpl; [|reflexivity].
      now destruct (String.eqb s "").
    + intros i Hi. simpl. now apply cellsOfRow_get.
    + intros k v Hk. simpl in Hk. now apply cellsOfRow_keys in Hk.
Qed.

(** The upgrade of a two-column, one-row table, read off the theorem. *)
Lemma gridSpecFromTable_shape_witness :
  let table :=
    {| tHead := Some [ {| tr_cells := [mkTableCell " ID "; mkTableCell ""];
                          tr_data_row_id := None |} ];
       tBodies := [ [ {| tr_cells := [mkTableCell "1"; mkTableCell " Ada "];
                         tr_data_row_id := None |} ] ] |} in
  exists columns rows,
    spec_columns (gridSpecFromTable table (mkHints "g" None)) = Some columns /\
    length columns = length (allHeaderCells table) /\
    length rows = length (allBodyRows table) /\
    (exists c, columns !! 1%nat = Some c /\ col_title c = "Col 2") /\
    (exists r, rows !! 0%nat = Some r /\ row_id r = "g__r1" /\
       objGet (row_cells r) "c2" = Some (CellStr "Ada")).
Proof.
  intros table.
  destruct (gridSpecFromTable_shape table (mkHints "g" None))
    as (columns & rows & Hc & _ & Hlc & Hlr & Hh & Hb & Hcols & Hrows).
  exists columns, rows.
  split; [exact Hc|].
  split; [rewrite <- (Hh _ eq_refl); exact Hlc|].
  split; [rewrite <- (Hb _ eq_refl); exact Hlr|]. split.
  - destruct (Hcols 1%nat (mkTableCell "") eq_refl) as (c & Hl & _ & Ht).
    exists c. split; [exact Hl | exact Ht].
  - destruct (Hrows 0%nat _ eq_refl) as (r & Hl & Hid & Hcells & _).
    exists r. split; [exact Hl|]. split; [exact Hid|].
    apply (Hcells 1%nat). simpl. lia.
Defined.

(** ** Merging rows by id *)

Section Upsert.

Context {A : Type}.
Implicit Types (m : list (string * A)) (k : string) (v : A).

Lemma mapSet_fresh m k v :
  k ∉ m.*1 -> mapSet m k v = m ++ [(k, v)].
Proof.
  induction m as [|[k' v'] m IH]; intros Hk; simpl; [reflexivity|].
  simpl in Hk. apply not_elem_of_cons in Hk as [Hne Hk].
  destruct (String.eqb k' k) eqn:E.
  - apply String.eqb_eq in E. congruence.
  - now rewrite IH.
Qed.


Lemma mapSet_keys m k v :
  (mapSet m k v).*1 = if bool_decide (k ∈ m.*1) then m.*1 else m.*1 ++ [k].
Proof.
  induction m as [|[k' v'] m IH]; [reflexivity|].
  cbn [mapSet]. destruct (String.eqb k' k) eqn:E; rewrite !fmap_cons; cbn [fst].
  - apply String.eqb_eq in E. subst k'.
    rewrite bool_decide_eq_true_2; [reflexivity | left].
  - apply String.eqb_neq in E. rewrite IH.
    destruct (bool_decide (k ∈ m.*1)) eqn:D.
    + apply bool_decide_eq_true in D.
      rewrite bool_decide_eq_true_2; [reflexivity | now right].
    + apply bool_decide_eq_false in D.
      rewrite bool_decide_eq_false_2; [reflexivity|].
      intros H. apply elem_of_cons in H as [H|H]; congruence.
Qed.

Lemma mapSet_NoDup m k v : NoDup m.*1 -> NoDup (mapSet m k v).*1.
Proof.
  intros Hnd. rewrite mapSet_keys. case_bool_decide as D; [assumption|].
  apply NoDup_app. split; [assumption|]. split.
  - intros x Hx Hx'. apply list_elem_of_singleton in Hx'. congruence.
  - apply NoDup_singleton.
Qed.

Lemma mapSet_lookup m k v i k0 v0 :
  NoDup m.*1 -> m !! i = Some (k0, v0) ->
  mapSet m k v !! i = Some (k0, if String.eqb k0 k then v else v0).
Proof.
  revert i. induction m as [|[k' v'] m IH]; intros i Hnd Hi; [discriminate|].
  rewrite fmap_cons in Hnd. apply NoDup_cons in Hnd as [Hk' Hnd].
  cbn [fst] in Hk'.
  destruct i as [|i]; cbn [mapSet].
  - inversion Hi; subst k' v'.
    now destruct (String.eqb k0 k).
  - change (m !! i = Some (k0, v0)) in Hi.
    destruct (String.eqb k' k) eqn:E.
    + apply String.eqb_eq in E. subst k'.
      change (m !! i = Some (k0, if String.eqb k0 k then v else v0)).
      destruct (String.eqb k0 k) eqn:E0; [|assumption].
      apply String.eqb_eq in E0. subst k0. exfalso. apply Hk'.
      apply list_elem_of_lookup. exists i.
      now rewrite list_lookup_fmap, Hi.
    + now apply IH.
Qed.

Lemma assoc_mapSet_eq m k v : assoc k (mapSet m k v) = Some v.
Proof.
  induction m as [|[k' v'] m IH]; cbn [mapSet assoc].
  - now rewrite String.eqb_refl.
  - destruct (String.eqb k' k) eqn:E; cbn [assoc]; rewrite E; auto.
Qed.

Lemma assoc_mapSet_ne m k k' v :
  k <> k' -> assoc k (mapSet m k' v) = assoc k m.
Proof.
  intros Hne. induction m as [|[k0 v0] m IH]; cbn [mapSet assoc].
  - destruct (String.eqb k' k) eqn:E; [|reflexivity].
    apply String.eqb_eq in E. congruence.
  - destruct (String.eqb k0 k') eqn:E0; cbn [assoc].
    + apply String.eqb_eq in E0. subst k0.
      destruct (String.eqb k' k) eqn:E; [|reflexivity].
      apply String.eqb_eq in E. congruence.
    + now rewrite IH.
Qed.

Lemma assoc_elem m k v : assoc k m = Some v -> (k, v) ∈ m.
Proof.
  induction m as [|[k' v'] m IH]; cbn [assoc]; [discriminate|].
  destruct (String.eqb k' k) eqn:E.
  - apply String.eqb_eq in E. intros H. inversion H; subst. left.
  - intros H. right. auto.
Qed.

End Upsert.

(** The map both upsert paths build, as one left fold. *)
Lemma upsert_fold (existing incoming : list Row) :
  upsert existing incoming
  = (foldl (fun m r => mapSet m (row_id r) r)
       (newMap (map rowEntry existing)) incoming).*2.
Proof. reflexivity. Qed.

Lemma newMap_distinct (existing : list Row) :
  NoDup (row_id <$> existing) -> newMap (map rowEntry existing) = rowEntry <$> existing.
Proof.
  unfold newMap. induction existing as [|r l IH] using rev_ind; [reflexivity|].
  intros Hnd. rewrite fmap_app in Hnd. apply NoDup_app in Hnd as (Hl & Hr & _).
  rewrite map_app, foldl_app, fmap_app. cbn [map foldl fmap list_fmap].
  rewrite IH by assumption. apply mapSet_fresh.
  rewrite <- list_fmap_compose. intros Hin.
  apply (Hr (row_id r)); [exact Hin | left].
Qed.

Section Fold.

Let setRow (m : list (string * Row)) (r : Row) := mapSet m (row_id r) r.

Lemma fold_NoDup (incoming : list Row) (m : list (string * Row)) :
  NoDup m.*1 -> NoDup (foldl setRow m incoming).*1.
Proof.
  revert m. induction incoming as [|r l IH]; intros m Hnd; [exact Hnd|].
  apply IH. now apply mapSet_NoDup.
Qed.

Lemma fold_lookup (incoming : list Row) (m : list (string * Row))
    (i : nat) (k : string) (v : Row) :
  NoDup m.*1 -> m !! i = Some (k, v) ->
  foldl setRow m incoming !! i = Some (k, default v (lastWithId k incoming)).
Proof.
  revert m v. induction incoming as [|r l IH]; intros m v Hnd Hi; [exact Hi|].
  cbn [foldl]. rewrite (IH _ (if String.eqb k (row_id r) then r else v)).
  - cbn [lastWithId]. destruct (lastWithId k l); [reflexivity|].
    rewrite (String.eqb_sym (row_id r) k).
    now destruct (String.eqb k (row_id r)).
  - now apply mapSet_NoDup.
  - now apply mapSet_lookup.
Qed.

Lemma fold_assoc (incoming : list Row) (m : list (string * Row)) (k : string) :
  assoc k (foldl setRow m incoming)
  = match lastWithId k incoming with
    | Some x => Some x
    | None => assoc k m
    end.
Proof.
  revert m. induction incoming as [|r l IH]; intros m; [reflexivity|].
  cbn [foldl lastWithId]. rewrite IH.
  destruct (lastWithId k l); [reflexivity|].
  unfold setRow. destruct (String.eqb (row_id r) k) eqn:E.
  - apply String.eqb_eq in E. subst k. apply assoc_mapSet_eq.
  - apply String.eqb_neq in E. apply assoc_mapSet_ne. congruence.
Qed.

Lemma fold_keys (incoming : list Row) (m : list (string * Row)) :
  (foldl setRow m incoming).*1 = m.*1 ++ newIds m.*1 (row_id <$> incoming).
Proof.
  revert m. induction incoming as [|r l IH]; intros m.
  - cbn. now rewrite app_nil_r.
  - cbn [foldl]. rewrite IH. subst setRow. cbn beta. rewrite mapSet_keys.
    rewrite fmap_cons. cbn [newIds].
    destruct (bool_decide (row_id r ∈ m.*1)); [reflexivity|].
    now rewrite <- app_assoc.
Qed.

Lemma fold_ids (incoming : list Row) (m : list (string * Row)) :
  Forall (fun kv => row_id (snd kv) = fst kv) m ->
  Forall (fun kv => row_id (snd kv) = fst kv) (foldl setRow m incoming).
Proof.
  revert m. induction incoming as [|r l IH]; intros m Hm; [exact Hm|].
  apply IH. unfold setRow. clear IH.
  induction m as [|[k v] m IHm]; cbn [mapSet].
  - now constructor.
  - apply Forall_cons in Hm as [Hkv Hm].
    destruct (String.eqb k (row_id r)) eqn:E.
    + apply String.eqb_eq in E. constructor; [cbn; congruence | assumption].
    + constructor; [assumption | now apply IHm].
Qed.

End Fold.

Lemma lastWithId_None (k : string) (l : list Row) :
  lastWithId k l = None <-> k ∉ row_id <$> l.
Proof.
  induction l as [|r l IH]; cbn [lastWithId].
  - rewrite fmap_nil. split; [intros _; apply not_elem_of_nil | reflexivity].
  - rewrite fmap_cons, not_elem_of_cons.
    destruct (lastWithId k l) eqn:L.
    + split; [discriminate|]. intros [_ H]. now apply IH in H.
    + destruct (String.eqb (row_id r) k) eqn:E.
      * apply String.eqb_eq in E. split; [discriminate|]. intros [H _]. congruence.
      * apply String.eqb_neq in E. split; [|reflexivity].
        intros _. split; [congruence | now apply IH].
Qed.

Lemma lastWithId_Some (k : string) (l : list Row) (r : Row) :
  lastWithId k l = Some r -> row_id r = k /\ r ∈ l.
Proof.
  induction l as [|x l IH]; cbn [lastWithId]; [discriminate|].
  destruct (lastWithId k l) eqn:L.
  - intros H. inversion H; subst. destruct (IH eq_refl) as [H1 H2].
    split; [assumption | now right].
  - destruct (String.eqb (row_id x) k) eqn:E; [|discriminate].
    apply String.eqb_eq in E. intros H. inversion H; subst. split; [reflexivity | left].
Qed.

(** A stream message [{type: "upsertRows", rows: incoming}]. *)
Lemma applySseMessage_upsert (m : GridModel) (p : MessageObject)
    (incoming : list Row) :
  msg_type p = Some "upsertRows" -> msg_rows p = Some incoming ->
  applySseMessage m (PayloadObject p) = withRows (upsert (m_rows m) incoming) m.
Proof.
  intros Ht Hr. unfold applySseMessage, typeIs. rewrite Ht, Hr. reflexivity.
Qed.

(** C9, as stated, fails when the existing list repeats an id: building
    the id-keyed map keeps one entry per id, so the first row with id "1"
    is replaced by the second although no incoming row mentions "1". *)
Lemma upsert_repeated_id_counterexample :
  ~ (forall (g : Grid) (incoming : list Row) (i : nat) (r : Row),
       m_rows (model g) !! i = Some r ->
       row_id r ∉ row_id <$> incoming ->
       m_rows (model (upsertRows (Some incoming) g)) !! i = Some r).
Proof.
  intros H.
  pose (a := mkRow "1" [("name", CellStr "Ada")] []).
  pose (b := mkRow "1" [("name", CellStr "Bob")] []).
  pose (c := mkRow "2" [("name", CellStr "Cy")] []).
  pose (h := mkHost None None None None None false None None None [] [] "" true).
  pose (g := withModel (withRows [a; b] emptyModel) (newGrid h)).
  specialize (H g [c] 0%nat a eq_refl).
  assert (row_id a ∉ row_id <$> [c]) as Hn.
  { cbn. intros Hin. apply list_elem_of_singleton in Hin. discriminate. }
  specialize (H Hn). vm_compute in H. discriminate.
Qed.

(** C9 (amended). When the ids of the existing rows are pairwise distinct,
    both upsert paths (the stream message and the capability call) give
    the same merge keyed by row id, last write winning: an existing row
    whose id is not mentioned stays unchanged at its position; an existing
    row whose id is mentioned is replaced, at its position, by the last
    incoming row with that id; every incoming id is present with the last
    incoming row that bears it; and the rows with new ids follow the
    existing ones, in the order of their first occurrence. *)
Theorem upsertRows_merges_by_id (g : Grid) (p : MessageObject)
    (incoming : list Row) :
  NoDup (row_id <$> m_rows (model g)) ->
  msg_type p = Some "upsertRows" -> msg_rows p = Some incoming ->
  let existing := m_rows (model g) in
  let merged := m_rows (model (upsertRows (Some incoming) g)) in
  m_rows (applySseMessage (model g) (PayloadObject p)) = merged /\
  (forall i r, existing !! i = Some r -> row_id r ∉ row_id <$> incoming ->
     merged !! i = Some r) /\
  (forall i r, existing !! i = Some r -> row_id r ∈ row_id <$> incoming ->
     exists r', lastWithId (row_id r) incoming = Some r' /\
                merged !! i = Some r') /\
  (forall r, r ∈ incoming ->
     exists r', lastWithId (row_id r) incoming = Some r' /\ r' ∈ merged) /\
  row_id <$> merged
  = (row_id <$> existing) ++ newIds (row_id <$> existing) (row_id <$> incoming).
Proof.
  intros Hnd Ht Hr. cbv zeta.
  change (m_rows (model (upsertRows (Some incoming) g)))
    with (upsert (m_rows (model g)) incoming).
  rewrite (applySseMessage_upsert _ _ _ Ht Hr). cbn [m_rows withRows].
  revert Hnd. generalize (m_rows (model g)). intros existing Hnd.
  split; [reflexivity|].
  rewrite upsert_fold, (newMap_distinct _ Hnd).
  assert (NoDup (rowEntry <$> existing).*1) as Hk.
  { rewrite <- list_fmap_compose. exact Hnd. }
  assert (forall i r, existing !! i = Some r ->
            (foldl (fun m r0 => mapSet m (row_id r0) r0)
               (rowEntry <$> existing) incoming).*2 !! i
            = Some (default r (lastWithId (row_id r) incoming))) as Hpos.
  { intros i r Hi. rewrite list_lookup_fmap.
    rewrite (fold_lookup incoming _ i (row_id r) r Hk).
    - reflexivity.
    - now rewrite list_lookup_fmap, Hi. }
  split; [|split; [|split]].
  - intros i r Hi Hn. rewrite (Hpos i r Hi).
    apply lastWithId_None in Hn. now rewrite Hn.
  - intros i r Hi Hin. rewrite (Hpos i r Hi).
    destruct (lastWithId (row_id r) incoming) as [r'|] eqn:L.
    + exists r'. split; reflexivity.
    + apply lastWithId_None in L. contradiction.
  - intros r Hin.
    destruct (lastWithId (row_id r) incoming) as [r'|] eqn:L.
    + exists r'. split; [reflexivity|].
      pose proof (fold_assoc incoming (rowEntry <$> existing) (row_id r)) as Ha.
      rewrite L in Ha. apply assoc_elem in Ha.
      apply list_elem_of_fmap. exists (row_id r, r'). split; [reflexivity | exact Ha].
    + apply lastWithId_None in L. exfalso. apply L.
      apply list_elem_of_fmap. exists r. split; [reflexivity | exact Hin].
  - pose proof (fold_ids incoming (rowEntry <$> existing)) as Hids.
    pose proof (fold_keys incoming (rowEntry <$> existing)) as Hkeys.
    rewrite <- !list_fmap_compose in Hkeys.
    change (fst ∘ rowEntry) with row_id in Hkeys.
    rewrite <- Hkeys, <- list_fmap_compose.
    apply Forall_fmap_ext_1. apply Hids.
    apply Forall_fmap. apply Forall_forall. intros r _. reflexivity.
Qed.

(** The scenario of the specification: rows [[{id: "1"}]] and an upsert of
    [[{id: "2"}]] leave row "1" unchanged in place and add row "2". *)
Lemma upsertRows_merges_by_id_witness :
  let r1 := mkRow "1" [("name", CellStr "Ada")] [] in
  let r2 := mkRow "2" [("name", CellStr "Bob")] [] in
  let h := mkHost None None None None None false None None None [] [] "" true in
  let g := withModel (withRows [r1] emptyModel) (newGrid h) in
  let merged := m_rows (model (upsertRows (Some [r2]) g)) in
  merged !! 0%nat = Some r1 /\ r2 ∈ merged /\ row_id <$> merged = ["1"; "2"].
Proof.
  intros r1 r2 h g merged.
  assert (NoDup (row_id <$> m_rows (model g))) as Hnd.
  { cbn. apply NoDup_singleton. }
  destruct (upsertRows_merges_by_id g
              (mkMessageObject (Some "upsertRows") None (Some [r2])) [r2]
              Hnd eq_refl eq_refl) as (_ & Hkeep & _ & Hnew & Hids).
  split; [|split].
  - apply (Hkeep 0%nat r1 eq_refl). cbn. intros Hin.
    apply list_elem_of_singleton in Hin. discriminate.
  - destruct (Hnew r2) as (r' & Hl & Hin); [left|].
    cbn in Hl. inversion Hl; subst r'. exact Hin.
  - exact Hids.
Defined.

(** ** Rendering: what a render leaves untouched *)

Section RenderFrame.

Lemma ensureBaseSheet_frame (g : Grid) :
  host (ensureBaseSheet g) = host g /\
  config (ensureBaseSheet g) = config g /\
  model (ensureBaseSheet g) = model g /\
  prov (ensureBaseSheet g) = prov g /\
  statusLog (ensureBaseSheet g) = statusLog g /\
  renders (ensureBaseSheet g) = renders g /\
  treeExpandedIds (ensureBaseSheet g) = treeExpandedIds g /\
  virtualizationState (ensureBaseSheet g) = virtualizationState g /\
  pluginStyleSheets (styles (ensureBaseSheet g)) = pluginStyleSheets (styles g) /\
  userCss (styles (ensureBaseSheet g)) = userCss (styles g).
Proof.
  unfold ensureBaseSheet.
  destruct (negb (shouldInjectStyles g)); [repeat split|].
  destruct (canAdoptSheets g); repeat split.
Qed.

Lemma applyStylePipeline_frame (g : Grid) :
  host (applyStylePipeline g) = host g /\
  config (applyStylePipeline g) = config g /\
  model (applyStylePipeline g) = model g /\
  prov (applyStylePipeline g) = prov g /\
  statusLog (applyStylePipeline g) = statusLog g /\
  renders (applyStylePipeline g) = renders g /\
  treeExpandedIds (applyStylePipeline g) = treeExpandedIds g /\
  virtualizationState (applyStylePipeline g) = virtualizationState g /\
  pluginStyleSheets (styles (applyStylePipeline g)) = pluginStyleSheets (styles g) /\
  userCss (styles (applyStylePipeline g)) = userCss (styles g).
Proof.
  unfold applyStylePipeline.
  destruct (negb (shouldInjectStyles g)); [repeat split|].
  destruct (canAdoptSheets g); repeat split.
Qed.

Lemma styled_frame (g : Grid) :
  host (styled g) = host g /\
  config (styled g) = config g /\
  model (styled g) = model g /\
  prov (styled g) = prov g /\
  statusLog (styled g) = statusLog g /\
  renders (styled g) = S (renders g) /\
  treeExpandedIds (styled g) = treeExpandedIds g /\
  virtualizationState (styled g) = virtualizationState g /\
  pluginStyleSheets (styles (styled g)) = pluginStyleSheets (styles g) /\
  userCss (styles (styled g)) = userCss (styles g).
Proof.
  unfold styled.
  destruct (applyStylePipeline_frame
              (ensureBaseSheet (withRenders (S (renders g)) g)))
    as (-> & -> & -> & -> & -> & -> & -> & -> & -> & ->).
  destruct (ensureBaseSheet_frame (withRenders (S (renders g)) g))
    as (-> & -> & -> & -> & -> & -> & -> & -> & -> & ->).
  repeat split.
Qed.

Lemma render_unfold (g : Grid) :
  render g
  = match m_status (model g) with
    | StError =>
        withView (ViewError (JS.strOr (m_error (model g)) "Error")) (styled g)
    | _ =>
        let w := computeWindow (config g) (model g) (treeExpandedIds g)
                   (virtualizationState g) in
        withView (ViewTable w)
          (if w_virtualizationEnabled w then styled g
           else withVirtualizationState (mkVState 0 0) (styled g))
    end.
Proof.
  unfold render. fold (styled g).
  destruct (styled_frame g) as (_ & -> & -> & _ & _ & _ & -> & -> & _).
  reflexivity.
Qed.

Lemma render_frame (g : Grid) :
  host (render g) = host g /\
  config (render g) = config g /\
  model (render g) = model g /\
  prov (render g) = prov g /\
  statusLog (render g) = statusLog g /\
  renders (render g) = S (renders g) /\
  treeExpandedIds (render g) = treeExpandedIds g /\
  pluginStyleSheets (styles (render g)) = pluginStyleSheets (styles g) /\
  userCss (styles (render g)) = userCss (styles g) /\
  styles (render g) = styles (styled g).
Proof.
  rewrite render_unfold.
  destruct (styled_frame g) as (H1 & H2 & H3 & H4 & H5 & H6 & H7 & _ & H8 & H9).
  destruct (m_status (model g)); cbv zeta;
    try destruct (w_virtualizationEnabled _); repeat split; assumption.
Qed.

End RenderFrame.

(** ** Virtualization *)

(** C7. A render that reaches the table activates virtualization exactly
    when the flattened row count exceeds the row threshold or the column
    count exceeds the column threshold, the thresholds being the
    [rowThreshold] and [columnThreshold] of [ui.virtualization] in the
    configuration, or 200 and 16 where the configuration does not set
    them; an [enabled] set there decides alone, whatever the counts. *)
Theorem virtualization_activation (g : Grid) :
  m_status (model g) <> StError ->
  exists w,
    view (render g) = ViewTable w /\
    w_flatEntries w
    = (if match config g with
          | Some cfg => match spec_ui cfg with
                        | Some ui => ui_tree_enabled ui
                        | None => false
                        end
          | None => false
          end
       then flattenTreeRows (m_rows (model g)) 0 [] (Some (treeExpandedIds g))
       else map (fun r => (r, 0%nat)) (m_rows (model g))) /\
    w_cols w
    = match m_columns (model g) with
      | [] => match config g with
              | Some c => default [] (spec_columns c)
              | None => []
              end
      | cs => cs
      end /\
    (forall cfg ui v,
       config g = Some cfg -> spec_ui cfg = Some ui ->
       ui_virtualization ui = Some v ->
       match v_enabled v with
       | Some b => w_virtualizationEnabled w = b
       | None =>
           w_virtualizationEnabled w = true <->
           (default 200 (v_rowThreshold v) < len (w_flatEntries w)
            \/ default 16 (v_columnThreshold v) < len (w_cols w))
       end) /\
    ((config g = None
      \/ (exists cfg, config g = Some cfg /\ spec_ui cfg = None)
      \/ (exists cfg ui, config g = Some cfg /\ spec_ui cfg = Some ui
                         /\ ui_virtualization ui = None)) ->
     w_virtualizationEnabled w = true <->
     (200 < len (w_flatEntries w) \/ 16 < len (w_cols w))).
Proof.
  intros Hst.
  exists (computeWindow (config g) (model g) (treeExpandedIds g)
            (virtualizationState g)).
  split.
  { rewrite render_unfold. destruct (m_status (model g)); try congruence;
      cbv zeta; destruct (w_virtualizationEnabled _); reflexivity. }
  split.
  { unfold computeWindow, uiOf. cbn [w_flatEntries].
    destruct (config g) as [cfg|]; reflexivity. }
  split; [reflexivity|].
  unfold computeWindow, virtualizationUiOf, uiOf.
  cbn [w_virtualizationEnabled w_flatEntries w_cols].
  split.
  - intros cfg ui v Hcfg Hui Hv. rewrite Hcfg, Hui, Hv. simpl default.
    destruct (v_enabled v); [reflexivity|].
    rewrite orb_true_iff, !Z.ltb_lt. reflexivity.
  - intros [Hcfg | [(cfg & Hcfg & Hui) | (cfg & ui & Hcfg & Hui & Hv)]].
    + rewrite Hcfg. simpl. rewrite orb_true_iff, !Z.ltb_lt. reflexivity.
    + rewrite Hcfg, Hui. simpl. rewrite orb_true_iff, !Z.ltb_lt. reflexivity.
    + rewrite Hcfg, Hui, Hv. simpl. rewrite orb_true_iff, !Z.ltb_lt. reflexivity.
Qed.

(** Three rows under a configured row threshold of 2 are virtualized; with
    [enabled: false] beside the same threshold they are not. *)
Lemma virtualization_activation_witness :
  (let g := initializeIfNeeded false (newGrid (virtualHost lowThreshold)) in
   exists w, view (render g) = ViewTable w /\ w_virtualizationEnabled w = true) /\
  (let g := initializeIfNeeded false (newGrid (virtualHost switchedOff)) in
   exists w, view (render g) = ViewTable w /\ w_virtualizationEnabled w = false).
Proof.
  split; intros g.
  - assert (m_status (model g) <> StError) as Hst by (vm_compute; discriminate).
    destruct (virtualization_activation g Hst) as (w & Hv & Hf & Hc & Hcfg & _).
    exists w. split; [exact Hv|].
    assert (config g = resolveConfig (virtualHost lowThreshold)) as Hg
      by (vm_compute; reflexivity).
    specialize (Hcfg _ _ lowThreshold Hg eq_refl eq_refl).
    apply Hcfg. left. rewrite Hf. vm_compute. reflexivity.
  - assert (m_status (model g) <> StError) as Hst by (vm_compute; discriminate).
    destruct (virtualization_activation g Hst) as (w & Hv & Hf & Hc & Hcfg & _).
    exists w. split; [exact Hv|].
    assert (config g = resolveConfig (virtualHost switchedOff)) as Hg
      by (vm_compute; reflexivity).
    exact (Hcfg _ _ switchedOff Hg eq_refl eq_refl).
Defined.

(** C4, as stated, fails for the viewport height: a configured height of 0
    becomes 160, not 1. *)
Lemma viewport_clamp_counterexample :
  ~ (forall (cfg : option GridSpec) (m : GridModel) (ids : list string)
       (vs : VirtualizationState) (x : Z),
       v_viewportHeightPx (virtualizationUiOf cfg) = Some x -> x <= 0 ->
       w_viewportHeightPx (computeWindow cfg m ids vs) = 1).
Proof.
  intros H.
  pose (v := mkVirtualizationUi None None (Some 0) None None None None None None).
  pose (cfg := Some (mkGridSpec "g" None (Some (mkUi false None false (Some v)))
                       None None [])).
  specialize (H cfg emptyModel [] (mkVState 0 0) 0 eq_refl (Z.le_refl 0)).
  vm_compute in H. discriminate.
Qed.

(** C4 (amended). Before the row and column windows are computed, the
    configured row height is clamped to a minimum of 1, the configured
    viewport height to a minimum of 160 and the configured viewport width
    to a minimum of 200; so a non-positive row height becomes 1, a
    non-positive viewport height 160 and a non-positive viewport width
    200, and the row window is computed from the clamped values. *)
Theorem dimension_clamps (cfg : option GridSpec) (m : GridModel)
    (ids : list string) (vs : VirtualizationState) :
  let v := virtualizationUiOf cfg in
  let w := computeWindow cfg m ids vs in
  (forall x, x <= 0 -> v_rowHeightPx v = Some x -> w_rowHeight w = 1) /\
  (forall x, x <= 0 -> v_viewportHeightPx v = Some x ->
     w_viewportHeightPx w = 160) /\
  (forall x, x <= 0 -> v_viewportWidthPx v = Some x ->
     w_viewportWidthPx w = 200) /\
  w_rowHeight w = Z.max 1 (default 34 (v_rowHeightPx v)) /\
  w_viewportHeightPx w = Z.max 160 (default 360 (v_viewportHeightPx v)) /\
  w_viewportWidthPx w = Z.max 200 (default 760 (v_viewportWidthPx v)) /\
  w_visibleRowCount w
  = (if w_virtualizationEnabled w
     then Z.max 1 (Z.min (len (w_flatEntries w))
                     (ceilDiv (w_viewportHeightPx w) (w_rowHeight w)
                      + w_bufferRows w * 2))
     else len (w_flatEntries w)).
Proof.
  intros v w. subst w v. unfold computeWindow.
  cbn [w_rowHeight w_viewportHeightPx w_viewportWidthPx w_visibleRowCount
       w_virtualizationEnabled w_flatEntries w_bufferRows].
  repeat split; try reflexivity; intros x Hx E; rewrite E; cbn; lia.
Qed.

Lemma dimension_clamps_witness :
  let v := mkVirtualizationUi None (Some (-5)) (Some 0) None None None (Some (-1))
             None None in
  let cfg := Some (mkGridSpec "g" None (Some (mkUi false None false (Some v)))
                     None None []) in
  let w := computeWindow cfg emptyModel [] (mkVState 0 0) in
  w_rowHeight w = 1 /\ w_viewportHeightPx w = 160 /\ w_viewportWidthPx w = 200.
Proof.
  intros v cfg w.
  destruct (dimension_clamps cfg emptyModel [] (mkVState 0 0))
    as (Hr & Hh & Hw & _).
  split; [|split].
  - apply (Hr (-5)); [lia | reflexivity].
  - apply (Hh 0); [lia | reflexivity].
  - apply (Hw (-1)); [lia | reflexivity].
Defined.

(** ** Style pipeline *)

(** Every render recomposes the applied rules from the fragments, the user
    rules and the host attributes alone. *)
Lemma render_composes (g : Grid) : appliedCss (render g) = composedCss g.
Proof.
  unfold appliedCss, canAdoptSheets.
  destruct (render_frame g) as (-> & _ & _ & _ & _ & _ & _ & _ & _ & ->).
  unfold styled, applyStylePipeline, ensureBaseSheet, composedCss,
    shouldInjectStyles, canAdoptSheets.
  cbn [host withRenders withStyles styles].
  destruct (attr_data_unstyled (host g)) eqn:U;
    destruct (can_adopt_sheets (host g)) eqn:E;
    cbn -[sortBy baseStyles nonEmpty themeCssText List.filter];
    rewrite ?U, ?E;
    cbn -[sortBy baseStyles nonEmpty themeCssText List.filter];
    try reflexivity.
  rewrite app_nil_r. destruct (nonEmpty (userCss (styles g))); reflexivity.
Qed.

Lemma setThemeCss_composes (css : string) (g : Grid) :
  appliedCss (setThemeCss css g)
  = composedCss
      (withStyles
         (mkStyleState (pluginStyleSheets (styles g)) None None None css [] []) g).
Proof.
  unfold setThemeCss. rewrite render_composes. unfold composedCss.
  cbn [host withStyles styles pluginStyleSheets userCss]. reflexivity.
Qed.

(** C5, as stated, fails: with [data-unstyled] the user rules are not
    applied either. *)
Lemma unstyled_user_css_counterexample :
  ~ (forall (g : Grid) (css : string),
       attr_data_unstyled (host g) = true -> css <> "" ->
       css ∈ appliedCss (setThemeCss css g)).
Proof.
  intros H.
  pose (h := mkHost None None None None None true None None None [] [] "" true).
  assert ("table { color: red; }" ∈ appliedCss
            (setThemeCss "table { color: red; }" (newGrid h))) as Hin.
  { apply H; [reflexivity | discriminate]. }
  vm_compute in Hin. apply elem_of_nil in Hin. exact Hin.
Qed.

(** C5 (amended). When default styling is disabled ([data-unstyled]) the
    style pipeline applies nothing: the structural base rules, the theme
    slot, every plugin-registered fragment and the caller-supplied rules
    set through [setThemeCss] are all skipped; the caller's text is only
    remembered. Without [data-unstyled], non-empty caller-supplied rules
    are applied, last. *)
Theorem unstyled_applies_nothing (g : Grid) (css : string) :
  (attr_data_unstyled (host g) = true ->
     appliedCss (render g) = [] /\
     appliedCss (setThemeCss css g) = [] /\
     userCss (styles (setThemeCss css g)) = css /\
     forall frag id priority uuid,
       appliedCss (fst (addStyles frag id priority uuid g)) = []) /\
  (attr_data_unstyled (host g) = false -> css <> "" ->
     exists before, appliedCss (setThemeCss css g) = before ++ [css]).
Proof.
  split.
  - intros Hu. split; [|split; [|split]].
    + rewrite render_composes. unfold composedCss. now rewrite Hu.
    + rewrite setThemeCss_composes. unfold composedCss.
      cbn [host withStyles]. now rewrite Hu.
    + unfold setThemeCss.
      destruct (render_frame
                  (withStyles
                     (mkStyleState (pluginStyleSheets (styles g))
                        (sheetBase (styles g)) (sheetTheme (styles g))
                        (if canAdoptSheets g
                         then if nonEmpty css then Some (makeSheet css) else None
                         else sheetUser (styles g)) css
                        (adoptedStyleSheets (styles g))
                        (styleFallbackEls (styles g))) g))
        as (_ & _ & _ & _ & _ & _ & _ & _ & -> & _).
      reflexivity.
    + intros frag id priority uuid. unfold addStyles. cbn [fst].
      rewrite render_composes. unfold composedCss.
      cbn [host withStyles]. now rewrite Hu.
  - intros Hu Hcss. rewrite setThemeCss_composes. unfold composedCss.
    cbn [host withStyles styles pluginStyleSheets userCss]. rewrite Hu.
    assert (nonEmpty css = true) as Hne.
    { unfold nonEmpty. apply negb_true_iff. now apply String.eqb_neq. }
    destruct (can_adopt_sheets (host g)).
    + rewrite Hne. eexists. rewrite app_assoc. reflexivity.
    + rewrite app_assoc, List.filter_app. cbn [List.filter]. rewrite Hne.
      eexists. reflexivity.
Qed.

Lemma unstyled_applies_nothing_witness :
  let unstyled := mkHost None None None None None true None None None [] [] "" true in
  let plain := mkHost None None None None None false None None None [] [] "" true in
  appliedCss (setThemeCss "table { color: red; }" (newGrid unstyled)) = [] /\
  exists before,
    appliedCss (setThemeCss "table { color: red; }" (newGrid plain))
    = before ++ ["table { color: red; }"].
Proof.
  intros unstyled plain. split.
  - destruct (unstyled_applies_nothing (newGrid unstyled) "table { color: red; }")
      as [Hu _].
    destruct (Hu eq_refl) as (_ & H & _). exact H.
  - destruct (unstyled_applies_nothing (newGrid plain) "table { color: red; }")
      as [_ Hs].
    apply Hs; [reflexivity | discriminate].
Defined.

(** *** Fragments and their disposers *)

Lemma disposeStyles_fragments (id : string) (g : Grid) :
  pluginStyleSheets (styles (disposeStyles id g))
  = List.filter (otherThan id) (pluginStyleSheets (styles g)).
Proof.
  unfold disposeStyles.
  match goal with
  | |- context [render ?x] =>
      destruct (render_frame x) as (_ & _ & _ & _ & _ & _ & _ & -> & _)
  end.
  reflexivity.
Qed.

Lemma disposeStyles_renders (id : string) (g : Grid) :
  renders (disposeStyles id g) = S (renders g).
Proof.
  unfold disposeStyles.
  match goal with
  | |- context [render ?x] =>
      destruct (render_frame x) as (_ & _ & _ & _ & _ & -> & _)
  end.
  reflexivity.
Qed.

Lemma addStyles_fragments (css : string) (id : option string)
    (priority : option Z) (uuid : string) (g : Grid) :
  exists e,
    pluginStyleSheets (styles (fst (addStyles css id priority uuid g)))
    = pluginStyleSheets (styles g) ++ [e] /\
    ps_id e = JS.optStrOr id uuid /\ ps_cssText e = css /\
    ps_priority e = default 0 priority.
Proof.
  unfold addStyles. cbn [fst].
  match goal with
  | |- context [render ?x] =>
      destruct (render_frame x) as (_ & _ & _ & _ & _ & _ & _ & -> & _)
  end.
  eexists. split; [reflexivity|]. repeat split.
Qed.

Lemma addStyles_renders (css : string) (id : option string)
    (priority : option Z) (uuid : string) (g : Grid) :
  renders (fst (addStyles css id priority uuid g)) = S (renders g).
Proof.
  unfold addStyles. cbn [fst].
  match goal with
  | |- context [render ?x] =>
      destruct (render_frame x) as (_ & _ & _ & _ & _ & -> & _)
  end.
  reflexivity.
Qed.

Lemma filter_otherThan_sound (id : string) (l : list PluginStyle) (x : PluginStyle) :
  x ∈ List.filter (otherThan id) l -> ps_id x <> id.
Proof.
  rewrite list_elem_of_In, List.filter_In. intros [_ H].
  unfold otherThan in H. apply negb_true_iff in H. now apply String.eqb_neq.
Qed.

Lemma render_composes_after (g : Grid) : composedCss g = composedCss (render g).
Proof.
  unfold composedCss.
  destruct (render_frame g) as (-> & _ & _ & _ & _ & _ & _ & -> & -> & _).
  reflexivity.
Qed.

(** C10. Two fragments registered through [addStyles] under the same id
    (given, or generated when the id is omitted or empty) are both
    removed by the disposer of either registration, together with every
    other fragment that bears the id, whatever the state the disposer is
    called in; fragments with other ids stay. Each registration and each
    disposal runs one render, which recomposes the applied rules from the
    fragments then registered. *)
Theorem addStyles_disposer_removes_id (g : Grid) (css1 css2 : string)
    (id1 id2 : option string) (p1 p2 : option Z) (uuid1 uuid2 : string) :
  JS.optStrOr id1 uuid1 = JS.optStrOr id2 uuid2 ->
  let id := JS.optStrOr id1 uuid1 in
  let r1 := addStyles css1 id1 p1 uuid1 g in
  let r2 := addStyles css2 id2 p2 uuid2 (fst r1) in
  (id1 = None -> id = uuid1) /\
  (exists e1 e2,
     pluginStyleSheets (styles (fst r2))
     = pluginStyleSheets (styles g) ++ [e1; e2] /\
     ps_id e1 = id /\ ps_id e2 = id /\
     ps_cssText e1 = css1 /\ ps_cssText e2 = css2) /\
  renders (fst r1) = S (renders g) /\
  renders (fst r2) = S (renders (fst r1)) /\
  appliedCss (fst r1) = composedCss (fst r1) /\
  appliedCss (fst r2) = composedCss (fst r2) /\
  forall dispose, dispose = snd r1 \/ dispose = snd r2 ->
    (forall g',
       pluginStyleSheets (styles (dispose g'))
       = List.filter (otherThan id) (pluginStyleSheets (styles g')) /\
       (forall x, x ∈ pluginStyleSheets (styles (dispose g')) -> ps_id x <> id) /\
       renders (dispose g') = S (renders g') /\
       appliedCss (dispose g') = composedCss (dispose g')) /\
    pluginStyleSheets (styles (dispose (fst r2)))
    = List.filter (otherThan id) (pluginStyleSheets (styles g)).
Proof.
  intros Hid id r1 r2.
  destruct (addStyles_fragments css1 id1 p1 uuid1 g) as (e1 & He1 & Hi1 & Hc1 & _).
  destruct (addStyles_fragments css2 id2 p2 uuid2 (fst r1))
    as (e2 & He2 & Hi2 & Hc2 & _).
  fold r1 in He1. fold r2 in He2. rewrite He1, <- app_assoc in He2.
  rewrite <- Hid in Hi2. fold id in Hi1, Hi2.
  assert (forall dispose, dispose = snd r1 \/ dispose = snd r2 ->
            dispose = disposeStyles id) as Hd.
  { intros d [-> | ->]; [reflexivity|]. unfold r2, addStyles. cbn [snd].
    now rewrite <- Hid. }
  split; [intros ->; reflexivity|].
  split; [exists e1, e2; repeat split; assumption|].
  split; [apply addStyles_renders|]. split; [apply addStyles_renders|].
  split; [unfold r1, addStyles; cbn [fst]; rewrite render_composes;
          apply render_composes_after|].
  split; [unfold r2, addStyles; cbn [fst]; rewrite render_composes;
          apply render_composes_after|].
  intros dispose Hdis. rewrite (Hd dispose Hdis). split.
  - intros g'. split; [apply disposeStyles_fragments|].
    split; [|split; [apply disposeStyles_renders|]].
    + intros x. rewrite disposeStyles_fragments. apply filter_otherThan_sound.
    + unfold disposeStyles. rewrite render_composes. apply render_composes_after.
  - assert (otherThan id e1 = false) as H1
      by (unfold otherThan; rewrite Hi1, String.eqb_refl; reflexivity).
    assert (otherThan id e2 = false) as H2
      by (unfold otherThan; rewrite Hi2, String.eqb_refl; reflexivity).
    rewrite disposeStyles_fragments, He2, List.filter_app.
    cbn [List.filter app]. rewrite H1, H2. apply app_nil_r.
Qed.

(** Two fragments registered under "badge": the disposer of the first
    removes both and keeps the theme fragment. *)
Lemma addStyles_disposer_removes_id_witness :
  let h := mkHost None None None None None false None None None [] [] "" true in
  let g0 := fst (addStyles modernThemeCss (Some "theme:modern") (Some 0) "" (newGrid h)) in
  let r1 := addStyles ".a { color: red; }" (Some "badge") None "u1" g0 in
  let r2 := addStyles ".b { color: blue; }" (Some "badge") (Some 5) "u2" (fst r1) in
  length (pluginStyleSheets (styles (fst r2))) = 3%nat /\
  map ps_id (pluginStyleSheets (styles (snd r1 (fst r2)))) = ["theme:modern"] /\
  map ps_id (pluginStyleSheets (styles (snd r2 (fst r2)))) = ["theme:modern"].
Proof.
  intros h g0 r1 r2.
  destruct (addStyles_disposer_removes_id g0 ".a { color: red; }"
              ".b { color: blue; }" (Some "badge") (Some "badge") None (Some 5)
              "u1" "u2" eq_refl)
    as (_ & (e1 & e2 & He & _) & _ & _ & _ & _ & Hd).
  split; [|split].
  - fold r1 r2 in He. rewrite He. reflexivity.
  - destruct (Hd (snd r1) (or_introl eq_refl)) as [_ H].
    fold r1 r2 in H. rewrite H. reflexivity.
  - destruct (Hd (snd r2) (or_intror eq_refl)) as [_ H].
    fold r1 r2 in H. rewrite H. reflexivity.
Defined.

(** ** Configuration resolution *)

(** C2, as stated, fails for the forced mode "json": when the inline block
    yields no spec the resolver goes on to the externally referenced
    block, and succeeds with it. *)
Lemma json_mode_counterexample :
  ~ (forall h : Host,
       explicitMode h = "json" \/ explicitMode h = "table"
       \/ explicitMode h = "factory" ->
       exists s, fst (resolveConfigTraced h) = [s] /\
                 (snd (resolveConfigTraced h) = None <->
                  match s with
                  | InternalJson => snd (tryInternalJson h)
                  | ExternalJson => snd (tryExternalJson h)
                  | TableUpgrade => snd (tryTable h)
                  | Factory => snd (tryFactory h)
                  end = None)).
Proof.
  intros H.
  pose (spec := mkGridSpec "orders" None None None None []).
  pose (h := mkHost (Some "json") (Some "cfg") None None None false
               None None None [("cfg", Some spec)] [] "" true).
  destruct (H h) as (s & Hs & _); [left; reflexivity|].
  vm_compute in Hs. discriminate.
Qed.

(** C2 (amended). A forced mode "table" or "factory" runs exactly that one
    strategy and nothing else: when it yields no spec, resolution fails.
    The forced mode "json" runs the inline-JSON strategy and, only when
    that yields no spec, the externally referenced JSON block; it never
    runs the table upgrade or the factory. *)
Theorem explicit_mode_resolution (h : Host) :
  (explicitMode h = "table" ->
     resolveConfigTraced h = tryTable h /\
     fst (resolveConfigTraced h) = [TableUpgrade]) /\
  (explicitMode h = "factory" ->
     resolveConfigTraced h = tryFactory h /\
     fst (resolveConfigTraced h) = [Factory]) /\
  (explicitMode h = "json" ->
     resolveConfig h
     = match snd (tryInternalJson h) with
       | Some spec => Some spec
       | None => snd (tryExternalJson h)
       end /\
     fst (resolveConfigTraced h)
     = (if isSome (snd (tryInternalJson h)) then [InternalJson]
        else [InternalJson; ExternalJson])).
Proof.
  unfold resolveConfig, resolveConfigTraced.
  split; [|split]; intros ->; cbn [String.eqb Ascii.eqb Bool.eqb]; cbv iota.
  - split; reflexivity.
  - split; reflexivity.
  - unfold orElse, tryInternalJson, tryExternalJson. cbn [fst snd].
    destruct (parseJsonScript _); split; reflexivity.
Qed.

Lemma explicit_mode_resolution_witness :
  let spec := mkGridSpec "orders" None None None None [] in
  let forcedTable := mkHost (Some " Table ") (Some "cfg") None None None false
                       None None None [("cfg", Some spec)] [] "" true in
  let forcedJson := mkHost (Some "json") (Some "cfg") None None None false
                      None None None [("cfg", Some spec)] [] "" true in
  (resolveConfigTraced forcedTable = ([TableUpgrade], None)) /\
  (resolveConfigTraced forcedJson = ([InternalJson; ExternalJson], Some spec)).
Proof.
  intros spec forcedTable forcedJson. split.
  - destruct (explicit_mode_resolution forcedTable) as (Ht & _ & _).
    destruct (Ht eq_refl) as [H _]. rewrite H. reflexivity.
  - destruct (explicit_mode_resolution forcedJson) as (_ & _ & Hj).
    destruct (Hj eq_refl) as [Hr Hs].
    rewrite (surjective_pairing (resolveConfigTraced forcedJson)).
    unfold resolveConfig in Hr. rewrite Hr, Hs. reflexivity.
Defined.

(** ** Stream messages *)

Lemma styled_rest (g : Grid) :
  emitted (styled g) = emitted g /\ initDone (styled g) = initDone g /\
  pluginDisposers (styled g) = pluginDisposers g /\ cycle (styled g) = cycle g.
Proof.
  unfold styled, applyStylePipeline, ensureBaseSheet.
  destruct (negb (shouldInjectStyles _)); cbn;
    [|destruct (canAdoptSheets _); cbn];
    repeat match goal with |- context [if ?b then _ else _] => destruct b end;
    repeat split.
Qed.

Lemma render_rest (g : Grid) :
  emitted (render g) = emitted g /\ initDone (render g) = initDone g /\
  pluginDisposers (render g) = pluginDisposers g /\ cycle (render g) = cycle g.
Proof.
  rewrite render_unfold. destruct (styled_rest g) as (H1 & H2 & H3 & H4).
  destruct (m_status (model g)); cbv zeta;
    try destruct (w_virtualizationEnabled _); repeat split; assumption.
Qed.

Lemma applySseMessage_unrecognized (m : GridModel) (payload : Payload) :
  recognized payload = false -> applySseMessage m payload = m.
Proof.
  destruct payload as [|p]; [reflexivity|].
  unfold recognized, applySseMessage, isSome.
  destruct (typeIs p "setSnapshot"), (msg_snapshot p); cbn; try discriminate;
    destruct (typeIs p "setRows"), (msg_rows p); cbn; try discriminate;
    destruct (typeIs p "upsertRows"); cbn; try discriminate; reflexivity.
Qed.

(** C3, as stated, fails: a message of an unknown type, arriving while the
    grid is loading, sets the status to ready. *)
Lemma unrecognized_message_counterexample :
  ~ (forall (h : Host) (events : list Event) (g g' : Grid) (pid : nat)
       (payload : Payload),
       run events (newGrid h) = Some g ->
       recognized payload = false ->
       step (EvSseMessage pid (DataJson payload)) g = Some g' ->
       m_rows (model g') = m_rows (model g) /\
       m_columns (model g') = m_columns (model g) /\
       m_sort (model g') = m_sort (model g) /\
       m_filters (model g') = m_filters (model g) /\
       m_status (model g') = m_status (model g)).
Proof.
  intros H.
  pose (ping := PayloadObject (mkMessageObject (Some "ping") None None)).
  destruct (run [EvConnected] (newGrid streamHost)) as [g|] eqn:Hg;
    [|vm_compute in Hg; discriminate].
  destruct (step (EvSseMessage 0 (DataJson ping)) g) as [g'|] eqn:Hg';
    [|revert Hg'; vm_compute in Hg; inversion Hg; subst g; vm_compute;
      discriminate].
  destruct (H streamHost [EvConnected] g g' 0%nat ping Hg eq_refl Hg')
    as (_ & _ & _ & _ & Hst).
  revert Hg' Hst. vm_compute in Hg. inversion Hg; subst g.
  vm_compute. intros Hg'. inversion Hg'; subst g'. discriminate.
Qed.

(** *** The event bus *)

Lemma render_bus (g : Grid) :
  events (render g) = events g /\ arrays (render g) = arrays g /\
  inits (render g) = inits g.
Proof.
  rewrite render_unfold.
  assert (events (styled g) = events g /\ arrays (styled g) = arrays g /\
          inits (styled g) = inits g) as (H1 & H2 & H3).
  { unfold styled, applyStylePipeline, ensureBaseSheet.
    destruct (negb (shouldInjectStyles _)); cbn;
      [|destruct (canAdoptSheets _); cbn];
      repeat match goal with |- context [if ?b then _ else _] => destruct b end;
      repeat split. }
  destruct (m_status (model g)); cbv zeta;
    try destruct (w_virtualizationEnabled _); repeat split; assumption.
Qed.

(** An emit to an event without handlers runs none. *)
Lemma dispatchAt_no_handlers (fuel : nat) (n : string) (detail : Detail)
    (g : Grid) :
  handlersOf n g = [] -> dispatchAt fuel n detail g = g.
Proof.
  unfold handlersOf, dispatchAt. intros H.
  destruct (assoc n (events g)) as [a|]; [|reflexivity].
  destruct fuel as [|fuel]; [reflexivity|]. simpl. now rewrite H.
Qed.

Lemma emit_no_handlers (n : string) (detail : Detail) (g : Grid) :
  handlersOf n g = [] -> emit n detail g = logEmit n g.
Proof. intros H. unfold emit, applyOp, applyOpAt. now apply dispatchAt_no_handlers. Qed.

(** C3 (amended). A stream message whose shape is not recognized is not
    ignored. The handler of the stream itself leaves rows, sort, filters
    and the error text unchanged, and leaves the columns unchanged unless
    the model has none, in which case they become the configured columns;
    it sets the status to ready, whatever the status was, emits "data",
    which calls the handlers subscribed to "data" with the message, and
    renders. Where no handler is subscribed to "data", the rows, sort,
    filters and error text after the message are those before it. Only a
    message whose text is not JSON changes nothing at all. *)
Theorem unrecognized_message_effect (g : Grid) (payload : Payload) :
  recognized payload = false ->
  (exists g1,
     onMsg (DataJson payload) g
     = render (dispatchAt handlerCalls "data" (payloadRows payload) g1) /\
     model g1
     = mkModel (match m_columns (model g) with
                | [] => configColumns g
                | cs => cs
                end)
         (m_rows (model g)) (m_sort (model g)) (m_filters (model g))
         StReady (m_error (model g)) /\
     emitted g1 = emitted g ++ ["data"] /\
     renders g1 = renders g /\
     events g1 = events g /\ arrays g1 = arrays g) /\
  (handlersOf "data" g = [] ->
   m_rows (model (onMsg (DataJson payload) g)) = m_rows (model g) /\
   m_sort (model (onMsg (DataJson payload) g)) = m_sort (model g) /\
   m_filters (model (onMsg (DataJson payload) g)) = m_filters (model g) /\
   m_error (model (onMsg (DataJson payload) g)) = m_error (model g) /\
   m_columns (model (onMsg (DataJson payload) g))
   = match m_columns (model g) with
     | [] => configColumns g
     | cs => cs
     end /\
   m_status (model (onMsg (DataJson payload) g)) = StReady /\
   emitted (onMsg (DataJson payload) g) = emitted g ++ ["data"] /\
   renders (onMsg (DataJson payload) g) = S (renders g)) /\
  onMsg DataInvalid g = g.
Proof.
  intros Hr. split; [|split; [|reflexivity]].
  - eexists. split.
    + unfold onMsg, emit, applyOp, applyOpAt.
      rewrite (applySseMessage_unrecognized _ _ Hr). reflexivity.
    + destruct (m_columns (model g)) eqn:E; destruct (model g);
        cbn in *; subst; repeat split.
  - intros Hno. unfold onMsg.
    rewrite (applySseMessage_unrecognized _ _ Hr).
    rewrite emit_no_handlers by exact Hno.
    match goal with
    | |- context [render ?x] =>
        destruct (render_frame x) as (_ & _ & -> & _ & _ & -> & _);
        destruct (render_rest x) as (-> & _)
    end.
    destruct (m_columns (model g)) eqn:E; repeat split; cbn; now rewrite ?E.
Qed.

Lemma unrecognized_message_effect_witness :
  let ping := PayloadObject (mkMessageObject (Some "ping") None None) in
  let g := withModel (mkModel [] [mkRow "1" [] []] [] [] StError "SSE connection error.")
             (newGrid streamHost) in
  m_rows (model (onMsg (DataJson ping) g)) = [mkRow "1" [] []] /\
  m_status (model (onMsg (DataJson ping) g)) = StReady.
Proof.
  intros ping g.
  destruct (unrecognized_message_effect g ping eq_refl)
    as (_ & Hquiet & _).
  destruct (Hquiet eq_refl) as (Hrows & _ & _ & _ & _ & Hst & _).
  split; [exact Hrows | exact Hst].
Defined.

(** With the sort plugin's handler subscribed to "data", a message of an
    unknown type that carries rows replaces the rows of the model. *)
Example unrecognized_message_reaches_handlers :
  let setRows := PayloadObject (mkMessageObject (Some "setRows") None (Some staleRows)) in
  let ping := PayloadObject (mkMessageObject (Some "ping") None (Some [adaRow])) in
  recognized ping = false /\
  exists g g',
    run [EvConnected; EvPluginsLoaded 0; EvSseMessage 0 (DataJson setRows)]
      (newGrid sortedStreamHost) = Some g /\
    step (EvSseMessage 0 (DataJson ping)) g = Some g' /\
    m_rows (model g) = staleRows /\
    m_rows (model g') = [adaRow] /\
    emitted g' = emitted g ++ ["data"; "grid:sorted"].
Proof.
  split; [reflexivity|]. eexists _, _.
  split; [vm_compute; reflexivity|]. split; [vm_compute; reflexivity|].
  vm_compute. repeat split.
Qed.

(** ** The status state machine *)

Section StatusInvariant.

Lemma consistent_view (g g' : Grid) :
  statusView g' = statusView g -> consistent g -> consistent g'.
Proof.
  unfold statusView, consistent. intros E.
  inversion E as [[E1 E2 E3 E4 E5 E6]].
  now rewrite E1, E2, E3, E4, E5, E6.
Qed.

Lemma underway_view (g g' : Grid) :
  statusView g' = statusView g -> underway g -> underway g'.
Proof.
  intros E [Hc Hs]. split; [now apply (consistent_view g)|].
  unfold statusView in E. inversion E as [[E1 E2 E3 E4 E5 E6]].
  now rewrite E1.
Qed.

Lemma keepsStatus_view (g g' : Grid) :
  statusView g' = statusView g -> keepsStatus g g'.
Proof.
  unfold statusView, keepsStatus. intros E.
  inversion E as [[E1 E2 E3 E4 E5 E6]]. rewrite E5. repeat split; auto.
Qed.

Lemma keepsStatus_refl (g : Grid) : keepsStatus g g.
Proof. repeat split; auto. Qed.

Lemma keepsStatus_trans (g1 g2 g3 : Grid) :
  keepsStatus g1 g2 -> keepsStatus g2 g3 -> keepsStatus g1 g3.
Proof.
  intros (A1 & A2 & A3 & A4 & A5 & A6) (B1 & B2 & B3 & B4 & B5 & B6).
  unfold keepsStatus. rewrite B1, B2, B3, B4, B5. repeat split; auto.
Qed.

Lemma consistent_keepsStatus (g g' : Grid) :
  keepsStatus g g' -> consistent g -> consistent g'.
Proof.
  intros (E1 & E2 & E3 & E4 & E5 & E6) (Hl & Ha & Hd & Hh & Hq & Hi).
  unfold consistent. rewrite E1, E2, E3, E4, E5. repeat split; auto.
Qed.

Lemma underway_keepsStatus (g g' : Grid) :
  keepsStatus g g' -> underway g -> underway g'.
Proof.
  intros K [Hc Hs]. split; [now apply (consistent_keepsStatus g)|].
  destruct K as (E1 & _). now rewrite E1.
Qed.

Lemma leaves_snoc (l : list Status) (a s : Status) :
  leavesInitThroughLoading l = true -> last l = Some a ->
  a <> StInit \/ s = StLoading ->
  leavesInitThroughLoading (l ++ [s]) = true.
Proof.
  induction l as [|x l IH]; intros Hl Ha Hs; [discriminate|].
  destruct l as [|y l'].
  - cbn in Ha. inversion Ha; subst x. cbn.
    destruct a; try (now destruct s).
    destruct Hs as [Hs | ->]; [congruence | reflexivity].
  - change (last (y :: l') = Some a) in Ha.
    change ((x :: y :: l') ++ [s]) with (x :: (y :: l') ++ [s]).
    assert (leavesInitThroughLoading (y :: l') = true) as Hy.
    { cbn [leavesInitThroughLoading] in Hl. destruct x, y; try assumption;
        discriminate. }
    specialize (IH Hy Ha Hs).
    cbn [leavesInitThroughLoading] in Hl |- *.
    change ((y :: l') ++ [s]) with (y :: (l' ++ [s])) in IH |- *.
    destruct x, y; try assumption; try discriminate.
Qed.

Lemma consistent_setStatus (s : Status) (g : Grid) :
  consistent g -> m_status (model g) <> StInit \/ s = StLoading ->
  consistent (setStatus s g).
Proof.
  intros (Hl & Ha & Hd & Hh & Hq & Hi) Hs. unfold consistent.
  change (statusLog (setStatus s g)) with (statusLog g ++ [s]).
  change (m_status (model (setStatus s g))) with s.
  change (pluginDisposers (setStatus s g)) with (pluginDisposers g).
  change (host (setStatus s g)) with (host g).
  change (arrays (setStatus s g)) with (arrays g).
  change (inits (setStatus s g)) with (inits g).
  split; [|split; [|split; [|split; [|split]]]]; try assumption.
  - change (StInit :: statusLog g ++ [s]) with ((StInit :: statusLog g) ++ [s]).
    now apply (leaves_snoc _ (m_status (model g))).
  - change (StInit :: statusLog g ++ [s]) with ((StInit :: statusLog g) ++ [s]).
    apply last_snoc.
Qed.

Lemma underway_setStatus (s : Status) (g : Grid) :
  underway g -> s <> StInit -> underway (setStatus s g).
Proof.
  intros [Hc Hs] Hne. split.
  - apply consistent_setStatus; [assumption | now left].
  - exact Hne.
Qed.

(** *** Calls that leave the status view alone *)

Lemma view_render (g : Grid) : statusView (render g) = statusView g.
Proof.
  unfold statusView.
  destruct (render_frame g) as (-> & _ & -> & _ & -> & _).
  destruct (render_rest g) as (_ & _ & -> & _).
  destruct (render_bus g) as (_ & -> & ->). reflexivity.
Qed.

Lemma view_setError (e : string) (g : Grid) :
  statusView (setError e g) = statusView g.
Proof. reflexivity. Qed.

Lemma view_logEmit (n : string) (g : Grid) :
  statusView (logEmit n g) = statusView g.
Proof. reflexivity. Qed.

Lemma view_setSnapshot (s : Snapshot) (g : Grid) :
  statusView (setSnapshot s g) = statusView g.
Proof. reflexivity. Qed.

Lemma view_setRows (r : option (list Row)) (g : Grid) :
  statusView (setRows r g) = statusView g.
Proof. reflexivity. Qed.

Lemma view_upsertRows (r : option (list Row)) (g : Grid) :
  statusView (upsertRows r g) = statusView g.
Proof. destruct r; reflexivity. Qed.

Lemma view_disposeStyles (id : string) (g : Grid) :
  statusView (disposeStyles id g) = statusView g.
Proof. unfold disposeStyles. now rewrite view_render. Qed.

Lemma view_addStyles (css : string) (id : option string) (p : option Z)
    (u : string) (g : Grid) :
  statusView (fst (addStyles css id p u g)) = statusView g.
Proof. unfold addStyles. cbn [fst]. now rewrite view_render. Qed.

Lemma view_registerDataProvider (k : string) (f : ProviderKind) (g : Grid) :
  statusView (registerDataProvider k f g) = statusView g.
Proof. unfold registerDataProvider. now destruct (String.eqb _ _). Qed.

Lemma view_abortRequest (a : option nat) (g : Grid) :
  statusView (abortRequest a g) = statusView g.
Proof.
  unfold abortRequest. destruct a as [rid|]; [|reflexivity].
  destruct (requests (prov g) !! rid) as [r|]; [|reflexivity].
  now destruct (req_state r).
Qed.

Lemma view_withProviders (ps : list ProviderInst) (g : Grid) :
  statusView (withProviders ps g) = statusView g.
Proof. reflexivity. Qed.

Lemma view_withRequests (rs : list Request) (g : Grid) :
  statusView (withRequests rs g) = statusView g.
Proof. reflexivity. Qed.

Lemma view_withActive (a : option nat) (g : Grid) :
  statusView (withActive a g) = statusView g.
Proof. reflexivity. Qed.

Lemma view_addProvider (inst : ProviderInst) (g : Grid) :
  statusView (addProvider inst g) = statusView g.
Proof. reflexivity. Qed.

Lemma view_fetchStartResume (pid : nat) (g : Grid) :
  statusView (fetchStartResume pid g) = statusView g.
Proof.
  unfold fetchStartResume.
  destruct (providers (prov g) !! pid) as [[|ds t a|es]|]; try reflexivity.
  now destruct (0 <? _).
Qed.

Lemma view_stopProvider (pid : nat) (g : Grid) :
  statusView (stopProvider pid g) = statusView g.
Proof.
  unfold stopProvider.
  destruct (providers (prov g) !! pid) as [[|ds t a|es]|]; try reflexivity.
  now rewrite view_withProviders, view_abortRequest.
Qed.

Lemma view_stopDataProvider (g : Grid) :
  statusView (stopDataProvider g) = statusView g.
Proof.
  unfold stopDataProvider. rewrite view_withActive.
  destruct (activeDataProvider (prov g)); [apply view_stopProvider | reflexivity].
Qed.

Lemma view_ensureBaseSheet (g : Grid) :
  statusView (ensureBaseSheet g) = statusView g.
Proof.
  unfold ensureBaseSheet. destruct (negb _); [reflexivity|].
  now destruct (canAdoptSheets g).
Qed.

Lemma view_setThemeCss (css : string) (g : Grid) :
  statusView (setThemeCss css g) = statusView g.
Proof. unfold setThemeCss. now rewrite view_render. Qed.

(** *** Quiet calls and quiet handlers *)

Lemma quietOp_on (n : string) (id : nat)
    (handler : Detail -> GridModel -> list ApiOp) :
  quietOp (OpOn n id handler) <-> quietHandler (mkHandler id handler).
Proof.
  unfold quietHandler, quietOps. cbn [h_react quietOp].
  split; intros H detail m; specialize (H detail m);
    induction (handler detail m) as [|o ops IH].
  - constructor.
  - destruct H as [Ho Hops]. constructor; [exact Ho | now apply IH].
  - exact I.
  - inversion H as [|? ? Ho Hops]; subst. split; [exact Ho | now apply IH].
Qed.

Lemma Forall_filter_list {A} (P : A -> Prop) (f : A -> bool) (l : list A) :
  Forall P l -> Forall P (List.filter f l).
Proof.
  induction 1 as [|x l Hx Hl IH]; cbn; [constructor|].
  destruct (f x); [constructor|]; assumption.
Qed.

Lemma quiet_handlersOf (n : string) (g : Grid) :
  quietArrays (arrays g) -> Forall quietHandler (handlersOf n g).
Proof.
  unfold quietArrays, handlersOf. intros Hq.
  destruct (assoc n (events g)) as [a|]; [|constructor].
  destruct (arrays g !! a) as [l|] eqn:El; [|constructor].
  exact (Forall_lookup_1 _ _ _ _ Hq El).
Qed.

Lemma quiet_handler_at (a i : nat) (h : Handler) (g : Grid) :
  quietArrays (arrays g) -> default [] (arrays g !! a) !! i = Some h ->
  quietHandler h.
Proof.
  unfold quietArrays. intros Hq Hh.
  destruct (arrays g !! a) as [l|] eqn:El; [|discriminate].
  pose proof (Forall_lookup_1 _ _ _ _ Hq El) as Hl.
  exact (Forall_lookup_1 _ _ _ _ Hl Hh).
Qed.

Lemma keepsStatus_on (n : string) (h : Handler) (g : Grid) :
  quietHandler h -> keepsStatus g (on n h g).
Proof.
  intros Hh. unfold on.
  destruct (assoc n (events g)) as [a|] eqn:Ea;
    unfold keepsStatus; cbn; repeat split; intros Hq.
  - apply Forall_insert; [exact Hq|].
    apply Forall_app. split; [now apply quiet_handlersOf|].
    constructor; [exact Hh | constructor].
  - apply Forall_app. split; [exact Hq|].
    constructor; [|constructor]. constructor; [exact Hh | constructor].
Qed.

Lemma keepsStatus_off (n : string) (id : nat) (g : Grid) :
  keepsStatus g (off n id g).
Proof.
  unfold off, keepsStatus. cbn. repeat split. intros Hq.
  apply Forall_app. split; [exact Hq|]. constructor; [|constructor].
  now apply Forall_filter_list, quiet_handlersOf.
Qed.

Lemma keepsStatus_applyBasic (op : ApiOp) (g : Grid) :
  quietOp op -> keepsStatus g (applyBasic op g).
Proof.
  destruct op; cbn [applyBasic]; intros H;
    try (apply keepsStatus_view;
         auto using view_render, view_logEmit, view_addStyles,
           view_disposeStyles, view_registerDataProvider, view_setError,
           view_setSnapshot, view_setRows, view_upsertRows; reflexivity).
  - destruct H.
  - apply keepsStatus_on. exact (proj1 (quietOp_on _ _ _) H).
  - apply keepsStatus_off.
Qed.

(** The calls of a quiet handler, with the handlers they run. *)
Lemma keepsStatus_calls (fuel : nat) (ops : list ApiOp) :
  (forall a i detail g,
     quietArrays (arrays g) -> keepsStatus g (dispatchFrom fuel a i detail g)) ->
  forall g,
    quietOps ops -> quietArrays (arrays g) ->
    keepsStatus g
      (foldl (fun g op =>
                match op with
                | OpEmit n d =>
                    let g := applyBasic op g in
                    match assoc n (events g) with
                    | Some a' => dispatchFrom fuel a' 0 d g
                    | None => g
                    end
                | _ => applyBasic op g
                end) g ops).
Proof.
  intros IH. induction ops as [|op ops IHops]; intros g Hops Hq;
    [apply keepsStatus_refl|].
  inversion Hops as [|? ? Hop Hrest]; subst. cbn [foldl].
  pose proof (keepsStatus_applyBasic op g Hop) as K1.
  assert (quietArrays (arrays (applyBasic op g))) as Hq1 by (now apply K1).
  match goal with
  | |- keepsStatus g (foldl ?f ?x ops) =>
      assert (keepsStatus g x) as K2
  end.
  { destruct op; try exact K1.
    cbv zeta. destruct (assoc _ _) as [a'|]; [|exact K1].
    eapply keepsStatus_trans; [exact K1 | now apply IH]. }
  eapply keepsStatus_trans; [exact K2|].
  apply IHops; [exact Hrest | now apply K2].
Qed.

Lemma keepsStatus_dispatchFrom (fuel a i : nat) (detail : Detail) (g : Grid) :
  quietArrays (arrays g) -> keepsStatus g (dispatchFrom fuel a i detail g).
Proof.
  revert a i detail g.
  induction fuel as [|fuel IH]; intros a i detail g Hq;
    [apply keepsStatus_refl|].
  cbn [dispatchFrom].
  destruct (default [] (arrays g !! a) !! i) as [h|] eqn:Eh;
    [|apply keepsStatus_refl].
  pose proof (quiet_handler_at _ _ _ _ Hq Eh detail (model g)) as Hops.
  pose proof (keepsStatus_calls fuel _ IH g Hops Hq) as K.
  cbv zeta. eapply keepsStatus_trans; [exact K|].
  apply IH. now apply K.
Qed.

Lemma keepsStatus_dispatchAt (fuel : nat) (n : string) (detail : Detail)
    (g : Grid) :
  quietArrays (arrays g) -> keepsStatus g (dispatchAt fuel n detail g).
Proof.
  intros Hq. unfold dispatchAt.
  destruct (assoc n (events g)); [now apply keepsStatus_dispatchFrom|].
  apply keepsStatus_refl.
Qed.

Lemma keepsStatus_applyOp (op : ApiOp) (g : Grid) :
  quietOp op -> quietArrays (arrays g) -> keepsStatus g (applyOp op g).
Proof.
  intros Hop Hq. unfold applyOp, applyOpAt.
  pose proof (keepsStatus_applyBasic op g Hop) as K.
  destruct op; try exact K.
  eapply keepsStatus_trans; [exact K|].
  apply keepsStatus_dispatchAt. now apply K.
Qed.

Lemma keepsStatus_emit (n : string) (detail : Detail) (g : Grid) :
  quietArrays (arrays g) -> keepsStatus g (emit n detail g).
Proof. intros Hq. unfold emit. now apply keepsStatus_applyOp. Qed.

Lemma keepsStatus_applyOps (ops : list ApiOp) (g : Grid) :
  quietOps ops -> quietArrays (arrays g) -> keepsStatus g (applyOps ops g).
Proof.
  unfold applyOps. revert g.
  induction ops as [|op ops IH]; intros g Hops Hq; [apply keepsStatus_refl|].
  inversion Hops as [|? ? Hop Hrest]; subst. cbn [foldl].
  pose proof (keepsStatus_applyOp op g Hop Hq) as K.
  eapply keepsStatus_trans; [exact K|]. apply IH; [exact Hrest | now apply K].
Qed.

Lemma underway_emit (n : string) (detail : Detail) (g : Grid) :
  underway g -> underway (emit n detail g).
Proof.
  intros H. apply (underway_keepsStatus g); [|exact H].
  apply keepsStatus_emit, H.
Qed.

Lemma underway_applyOp (op : ApiOp) (g : Grid) :
  quietOp op -> underway g -> underway (applyOp op g).
Proof.
  intros Hop H. apply (underway_keepsStatus g); [|exact H].
  apply keepsStatus_applyOp; [exact Hop | apply H].
Qed.

Lemma underway_applyOps (ops : list ApiOp) (g : Grid) :
  quietOps ops -> underway g -> underway (applyOps ops g).
Proof.
  intros Hops H. apply (underway_keepsStatus g); [|exact H].
  apply keepsStatus_applyOps; [exact Hops | apply H].
Qed.

End StatusInvariant.

(** *** Calls that assign the status *)

Ltac underway_step :=
  match goal with
  | H : underway ?g |- underway ?g => exact H
  | |- underway (render _) => apply (underway_view _ _ (view_render _))
  | |- underway (setError _ _) => apply (underway_view _ _ (view_setError _ _))
  | |- underway (emit _ _ _) => apply underway_emit
  | |- underway (setSnapshot _ _) =>
      apply (underway_view _ _ (view_setSnapshot _ _))
  | |- underway (abortRequest _ _) =>
      apply (underway_view _ _ (view_abortRequest _ _))
  | |- underway (withProviders _ _) =>
      apply (underway_view _ _ (view_withProviders _ _))
  | |- underway (withRequests _ _) =>
      apply (underway_view _ _ (view_withRequests _ _))
  | |- underway (withActive _ _) =>
      apply (underway_view _ _ (view_withActive _ _))
  | |- underway (addProvider _ _) =>
      apply (underway_view _ _ (view_addProvider _ _))
  | |- underway (stopDataProvider _) =>
      apply (underway_view _ _ (view_stopDataProvider _))
  | |- underway (ensureBaseSheet _) =>
      apply (underway_view _ _ (view_ensureBaseSheet _))
  | |- underway (registerDataProvider _ _ _) =>
      apply (underway_view _ _ (view_registerDataProvider _ _ _))
  | |- underway (fetchStartResume _ _) =>
      apply (underway_view _ _ (view_fetchStartResume _ _))
  | |- underway (setStatus _ _) => apply underway_setStatus; [|discriminate]
  | |- underway (if ?b then _ else _) => destruct b
  | |- underway (match ?x with _ => _ end) => destruct x
  | |- underway (fst (if ?b then _ else _)) => destruct b
  | |- underway (fst (match ?x with _ => _ end)) => destruct x
  | |- underway (fst (_, _)) => cbn [fst]
  end.

Ltac underway_auto := repeat underway_step.

Lemma underway_staticStart (ds : DataSource) (g : Grid) :
  underway g -> underway (staticStart ds g).
Proof. intros H. unfold staticStart. underway_auto. Qed.

Lemma underway_fetchOnce (pid : nat) (awaited : bool) (g : Grid) :
  underway g -> underway (fetchOnce pid awaited g).
Proof. intros H. unfold fetchOnce. underway_auto. Qed.

Lemma underway_fetchResume (outcome : FetchOutcome) (g : Grid) :
  underway g -> underway (fetchResume outcome g).
Proof. intros H. unfold fetchResume. underway_auto. Qed.

Lemma applySseMessage_status (m : GridModel) (payload : Payload) :
  m_status (applySseMessage m payload) = m_status m.
Proof.
  destruct payload as [|p]; [reflexivity|]. unfold applySseMessage.
  destruct (typeIs p "setSnapshot"), (msg_snapshot p); try reflexivity;
    destruct (typeIs p "setRows"), (msg_rows p); try reflexivity;
    destruct (typeIs p "upsertRows"); reflexivity.
Qed.

Lemma underway_onMsg (data : SseData) (g : Grid) :
  underway g -> underway (onMsg data g).
Proof.
  intros H. unfold onMsg. destruct data as [|payload]; [exact H|].
  underway_auto.
  match goal with
  | |- underway (withModel ?m g) =>
      apply (underway_view g); [|exact H];
      assert (m_status m = m_status (model g)) as E
  end.
  - destruct (m_columns (applySseMessage (model g) payload));
      apply applySseMessage_status.
  - unfold statusView.
    cbn [model withModel statusLog pluginDisposers host arrays inits].
    now rewrite E.
Qed.

Lemma underway_onSseError (g : Grid) : underway g -> underway (onSseError g).
Proof. intros H. unfold onSseError. underway_auto. Qed.

Lemma underway_startDataProvider (g : Grid) :
  underway g -> underway (fst (startDataProvider g)).
Proof.
  intros H. unfold startDataProvider.
  repeat first
    [ underway_step
    | apply underway_staticStart
    | apply underway_fetchOnce ].
Qed.

Lemma underway_initPlugin (p : LoadedPlugin) (g : Grid) :
  quietPlugin p -> underway g -> underway (initPlugin g p).
Proof.
  unfold quietPlugin, initPlugin. intros [Hf Hd] H.
  pose proof (underway_applyOps _ g Hf H) as [(Hl & Ha & Hq & Hh & Hb & Hi) Hs].
  destruct (lp_disposer p) as [d|]; [|now repeat split].
  repeat split; try assumption.
  cbn [pluginDisposers withPluginDisposers]. unfold quietDisposers.
  apply Forall_app. split; [exact Hq|]. constructor; [exact Hd | constructor].
Qed.

Lemma underway_initPlugins (ps : list LoadedPlugin) (g : Grid) :
  Forall quietPlugin ps -> underway g -> underway (foldl initPlugin g ps).
Proof.
  revert g. induction ps as [|p ps IH]; intros g Hq H; [exact H|].
  inversion Hq as [|? ? Hp Hps]; subst. cbn [foldl].
  apply IH; [assumption | now apply underway_initPlugin].
Qed.

Lemma Forall_insertSorted {A} (P : A -> Prop) (before : A -> A -> bool)
    (x : A) (l : list A) :
  P x -> Forall P l -> Forall P (insertSorted before x l).
Proof.
  intros Hx. induction 1 as [|y l Hy Hl IH]; cbn.
  - constructor; [exact Hx | constructor].
  - destruct (before x y); repeat constructor; assumption.
Qed.

Lemma Forall_sortBy {A} (P : A -> Prop) (before : A -> A -> bool) (l : list A) :
  Forall P l -> Forall P (sortBy before l).
Proof.
  unfold sortBy. intros Hl.
  assert (forall acc, Forall P acc ->
            Forall P (foldl (fun a x => insertSorted before x a) acc l))
    as Hgen.
  { induction Hl as [|x l Hx Hl IH]; intros acc Hacc; [exact Hacc|].
    cbn [foldl]. apply IH. now apply Forall_insertSorted. }
  apply Hgen. constructor.
Qed.

Lemma quiet_loadExternalPlugins (refs : list PluginRef) :
  Forall (fun ref => match ref_import ref with
                     | Some m => quietModule m
                     | None => True
                     end) refs ->
  Forall quietPlugin (loadExternalPlugins refs).
Proof.
  unfold loadExternalPlugins. generalize 0.
  induction refs as [|ref refs IH]; intros order Hq; [constructor|].
  inversion Hq as [|? ? Hr Hrest]; subst. cbn [loadExternalPluginsFrom].
  destruct (ref_moduleUrl ref) as [url|]; [|now apply IH].
  destruct (nonEmpty url); [|now apply IH].
  destruct (ref_import ref) as [m|]; [|now apply IH].
  constructor; [exact Hr | now apply IH].
Qed.

(** *** Initialization and reinitialization *)

Lemma quiet_builtIns : Forall quietPlugin builtIns.
Proof.
  unfold builtIns. constructor; [|constructor].
  split; cbn; repeat constructor.
Qed.

Lemma quiet_plugins_of_spec (cfg : GridSpec) :
  quietSpec cfg ->
  Forall quietPlugin
    (sortBy pluginBefore (builtIns ++ loadExternalPlugins (spec_plugins cfg))).
Proof.
  intros Hq. apply Forall_sortBy, Forall_app. split.
  - exact quiet_builtIns.
  - now apply quiet_loadExternalPlugins.
Qed.

Lemma underway_initResume (cfg : GridSpec) (g : Grid) :
  quietSpec cfg -> underway g -> underway (initResume cfg g).
Proof.
  intros Hq H. unfold initResume.
  pose proof (quiet_plugins_of_spec _ Hq) as Hplugins.
  match goal with
  | |- underway (let '(g1, suspended) := startDataProvider ?x in _) =>
      assert (underway x) as Hx;
      [| pose proof (underway_startDataProvider x Hx) as Hs;
         destruct (startDataProvider x) as [gs susp]; cbn [fst] in Hs;
         underway_auto ]
  end.
  underway_step. now apply underway_initPlugins.
Qed.

Lemma underway_withInits (t : list InitTask) (g : Grid) :
  quietInits t -> underway g -> underway (withInits t g).
Proof.
  intros Ht [(Hl & Ha & Hd & Hh & Hb & Hi) Hs].
  split; [|exact Hs]. unfold consistent.
  split; [exact Hl|]. split; [exact Ha|]. split; [exact Hd|].
  split; [exact Hh|]. split; [exact Hb | exact Ht].
Qed.

Lemma underway_initialize (force : bool) (g : Grid) :
  consistent g -> initDone g && negb force = false ->
  underway (initializeIfNeeded force g).
Proof.
  intros Hc Hforce. unfold initializeIfNeeded. rewrite Hforce.
  assert (underway (setStatus StLoading (withInitDone true g))) as H1.
  { split; [|discriminate].
    apply consistent_setStatus; [|now right].
    now apply (consistent_view g). }
  assert (quietHost (host g)) as Hq by apply Hc.
  change (host (setStatus StLoading (withInitDone true g))) with (host g).
  unfold quietHost in Hq.
  destruct (resolveConfig (host g)) as [cfg|] eqn:Hcfg; [|underway_auto].
  match goal with
  | |- underway (if _ then withInits _ ?x else initResume cfg ?x) =>
      assert (underway x) as Hx
  end.
  { underway_auto.
    apply (underway_view (setStatus StLoading (withInitDone true g)));
      [reflexivity | exact H1]. }
  destruct (importsPending cfg).
  - apply underway_withInits; [|exact Hx].
    apply Forall_app. split; [apply Hx|].
    constructor; [exact Hq | constructor].
  - now apply underway_initResume.
Qed.

Lemma underway_disposers (ds : list (list ApiOp)) (g : Grid) :
  quietDisposers ds -> underway g ->
  underway (foldl (fun g d => applyOps d g) g ds).
Proof.
  revert g. induction ds as [|d ds IH]; intros g Hq H; [exact H|].
  inversion Hq as [|? ? Hd Hds]; subst. cbn [foldl].
  apply IH; [assumption | now apply underway_applyOps].
Qed.

Lemma underway_reinitialize (g : Grid) :
  underway g -> underway (reinitialize g).
Proof.
  intros H. unfold reinitialize.
  assert (underway (stopDataProvider g)) as H1 by underway_auto.
  assert (quietDisposers (pluginDisposers (stopDataProvider g))) as Hq
    by apply H1.
  assert (underway (withPluginDisposers [] (stopDataProvider g))) as H2.
  { destruct H1 as [(Hl & Ha & _ & Hh & Hb & Hi) Hs].
    repeat split; try assumption. constructor. }
  pose proof (underway_disposers _ _ Hq H2) as H3.
  apply underway_initialize; [|apply andb_false_r].
  match goal with
  | |- consistent (withCycle _ (withVirtualizationState _
                     (withStatusLog _ (withModel _ ?x)))) =>
      assert (underway x) as [(Hl & Ha & Hd & Hh & Hb & Hi) Hs]
  end.
  { match goal with
    | |- underway (withConfig _ (withTreeExpandedIds _ (withEvents _
                     (withProv _ (withStyles _ ?y))))) =>
        apply (underway_view y); [reflexivity | exact H3]
    end. }
  unfold consistent.
  cbn [statusLog withCycle withVirtualizationState withStatusLog withModel
       model m_status emptyModel pluginDisposers host arrays inits].
  repeat split; try assumption.
  - change (StInit :: ?l ++ [StInit]) with ((StInit :: l) ++ [StInit]).
    eapply leaves_snoc; [exact Hl | exact Ha | now left].
  - change (StInit :: ?l ++ [StInit]) with ((StInit :: l) ++ [StInit]).
    apply last_snoc.
Qed.

(** *** The invariant of a run *)

Lemma steady_underway (g : Grid) : underway g -> steady g.
Proof. intros [Hc Hs]. split; [exact Hc | congruence]. Qed.

Lemma steady_not_pristine (g : Grid) :
  steady g -> ~ pristine g -> underway g.
Proof.
  intros [Hc Hp] Hn. split; [exact Hc|]. intros E. apply Hn, Hp, E.
Qed.

Lemma steady_newGrid (h : Host) : quietHost h -> steady (newGrid h).
Proof.
  intros Hq. split; [|intros _; repeat split].
  repeat split; try reflexivity; try constructor. exact Hq.
Qed.

Lemma steady_step (e : Event) (g g' : Grid) :
  steady g -> quietEvent e -> step e g = Some g' -> steady g'.
Proof.
  intros Hs Hq Hstep. destruct e; cbn [step quietEvent] in Hstep, Hq.
  - (* connected *)
    inversion Hstep; subst g'. clear Hstep.
    destruct (initDone g) eqn:Hd.
    + unfold initializeIfNeeded. rewrite Hd. exact Hs.
    + apply steady_underway, underway_initialize; [apply Hs|].
      now rewrite Hd.
  - (* attribute changed *)
    inversion Hstep; subst g'. clear Hstep.
    destruct Hs as [(Hl & Ha & Hdq & _ & Hb & Hi) Hp].
    change (initDone (withHost h g)) with (initDone g).
    destruct (initDone g) eqn:Hd.
    + apply steady_underway, underway_reinitialize.
      split; [repeat split; assumption|].
      change (m_status (model (withHost h g))) with (m_status (model g)).
      intros E. destruct (Hp E) as (Hi' & _). congruence.
    + split; [repeat split; assumption|].
      intros E. destruct (Hp E) as (? & ? & ? & ? & ?).
      repeat split; assumption.
  - (* a request settles *)
    destruct (requests (prov g) !! rid) as [r|] eqn:Hr; [|discriminate].
    assert (underway g) as Hu.
    { apply steady_not_pristine; [exact Hs|]. intros (_ & _ & _ & E & _).
      rewrite E in Hr. discriminate. }
    match type of Hstep with
    | (if ?b then _ else _) = _ => destruct b; [|discriminate]
    end.
    inversion Hstep; subst g'. apply steady_underway.
    repeat first [ underway_step | apply underway_fetchResume ].
  - (* poll tick *)
    destruct (providers (prov g) !! pid) as [[|ds [|] a|es]|] eqn:Hp;
      try discriminate.
    inversion Hstep; subst g'. apply steady_underway, underway_fetchOnce.
    apply steady_not_pristine; [exact Hs|]. intros (_ & _ & E & _).
    rewrite E in Hp. discriminate.
  - (* stream message *)
    destruct (providers (prov g) !! pid) as [[|ds t a|[|]]|] eqn:Hp;
      try discriminate.
    inversion Hstep; subst g'. apply steady_underway, underway_onMsg.
    apply steady_not_pristine; [exact Hs|]. intros (_ & _ & E & _).
    rewrite E in Hp. discriminate.
  - (* stream error *)
    destruct (providers (prov g) !! pid) as [[|ds t a|[|]]|] eqn:Hp;
      try discriminate.
    inversion Hstep; subst g'. apply steady_underway, underway_onSseError.
    apply steady_not_pristine; [exact Hs|]. intros (_ & _ & E & _).
    rewrite E in Hp. discriminate.
  - (* plugin call *)
    destruct (config g) as [cfg|] eqn:Hc; [|discriminate].
    inversion Hstep; subst g'. apply steady_underway.
    apply underway_applyOp; [exact Hq|].
    apply steady_not_pristine; [exact Hs|]. intros (_ & E & _). congruence.
  - (* user rules *)
    inversion Hstep; subst g'. destruct Hs as [Hc Hp]. split.
    + now apply (consistent_view g); [apply view_setThemeCss|].
    + pose proof (view_setThemeCss cssText g) as Hv. unfold statusView in Hv.
      inversion Hv as [[E1 E2 E3 E4 E5 E6]]. intros E. rewrite E1 in E.
      destruct (Hp E) as (Hi & Hcfg & Hpr & Hrq & Hin). unfold setThemeCss.
      match goal with
      | |- pristine (render ?x) =>
          destruct (render_frame x) as (_ & F1 & _ & F2 & _);
          destruct (render_rest x) as (_ & F3 & _);
          destruct (render_bus x) as (_ & _ & F4)
      end.
      unfold pristine. rewrite F1, F2, F3, F4. repeat split; assumption.
  - (* the plugin modules are loaded *)
    destruct (inits g !! tid) as [t|] eqn:Ht; [|discriminate].
    destruct (it_pending t); [|discriminate].
    inversion Hstep; subst g'. clear Hstep.
    assert (underway g) as Hu.
    { apply steady_not_pristine; [exact Hs|]. intros (_ & _ & _ & _ & E).
      rewrite E in Ht. discriminate. }
    assert (quietInits (inits g)) as Hi by apply Hu.
    assert (quietSpec (it_cfg t)) as Ht'
      by exact (Forall_lookup_1 _ _ _ _ Hi Ht).
    apply steady_underway, underway_initResume; [exact Ht'|].
    apply underway_withInits; [|exact Hu].
    apply Forall_insert; [exact Hi | exact Ht'].
Qed.

Lemma steady_run (events : list Event) (g g' : Grid) :
  steady g -> Forall quietEvent events -> run events g = Some g' ->
  steady g'.
Proof.
  revert g. induction events as [|e events IH]; intros g Hs Hq Hrun.
  - inversion Hrun; now subst.
  - inversion Hq as [|? ? He Hrest]; subst. cbn [run] in Hrun.
    destruct (step e g) as [g1|] eqn:Hstep; [|discriminate].
    apply (IH g1); [now apply (steady_step e g) | assumption | assumption].
Qed.

(** A stream grid whose connection fails and then delivers a message. *)
Example stream_recovers_log :
  option_map statusLog
    (run [EvConnected; EvSseError 0;
          EvSseMessage 0 (DataJson (PayloadObject (mkMessageObject None None None)))]
       (newGrid streamHost))
  = Some [StLoading; StLoading; StError; StReady].
Proof. vm_compute. reflexivity. Qed.

(** C1, as stated, fails: after a connection error the next stream
    message takes the status from error to ready, without passing through
    loading. *)
Lemma error_to_ready_counterexample :
  ~ (forall (h : Host) (events : list Event) (g : Grid),
       run events (newGrid h) = Some g ->
       onlyListedTransitions (StInit :: statusLog g) = true).
Proof.
  intros H.
  pose (events := [EvConnected; EvSseError 0;
                   EvSseMessage 0
                     (DataJson (PayloadObject (mkMessageObject None None None)))]).
  destruct (run events (newGrid streamHost)) as [g|] eqn:Hg;
    [|vm_compute in Hg; discriminate].
  specialize (H streamHost events g Hg).
  revert H. vm_compute in Hg. inversion Hg; subst g. vm_compute. discriminate.
Qed.



Lemma onMsg_status (payload : Payload) (g : Grid) :
  quietArrays (arrays g) ->
  m_status (model (onMsg (DataJson payload) g)) = StReady /\
  statusLog (onMsg (DataJson payload) g) = statusLog g ++ [StReady].
Proof.
  intros Hq. unfold onMsg.
  match goal with
  | |- context [render ?x] =>
      destruct (render_frame x) as (_ & _ & Hm & _ & Hl & _)
  end.
  rewrite Hm, Hl.
  match goal with
  | |- context [emit ?n ?d ?x] =>
      destruct (keepsStatus_emit n d x Hq) as (-> & -> & _)
  end.
  split; reflexivity.
Qed.

Lemma onSseError_status (g : Grid) :
  m_status (model (onSseError g)) = StError /\
  statusLog (onSseError g) = statusLog g ++ [StError].
Proof.
  unfold onSseError.
  match goal with
  | |- context [render ?x] =>
      destruct (render_frame x) as (_ & _ & Hm & _ & Hl & _)
  end.
  rewrite Hm, Hl. split; reflexivity.
Qed.

(** C1 (amended). In a grid none of whose plugins calls [setStatus], the
    status leaves init only to loading: every initialization and every
    reinitialization (which first resets the status to init) assigns
    loading before anything else, so no assignment takes init to ready or
    to error. From there on the status is assigned without regard to its
    current value: a stream message that parses sets ready and a
    connection error sets error, whatever the status was, so error to
    ready and ready to error happen directly. *)
Theorem status_leaves_init_through_loading (h : Host) (events : list Event)
    (g : Grid) :
  quietHost h -> Forall quietEvent events ->
  run events (newGrid h) = Some g ->
  leavesInitThroughLoading (StInit :: statusLog g) = true /\
  last (StInit :: statusLog g) = Some (m_status (model g)) /\
  (m_status (model g) = StInit -> pristine g) /\
  (forall pid payload g',
     step (EvSseMessage pid (DataJson payload)) g = Some g' ->
     m_status (model g') = StReady /\ statusLog g' = statusLog g ++ [StReady]) /\
  (forall pid g',
     step (EvSseError pid) g = Some g' ->
     m_status (model g') = StError /\ statusLog g' = statusLog g ++ [StError]).
Proof.
  intros Hq He Hrun.
  destruct (steady_run events _ g (steady_newGrid h Hq) He Hrun)
    as [(Hl & Ha & _ & _ & Hb & _) Hp].
  split; [exact Hl|]. split; [exact Ha|]. split; [exact Hp|]. split.
  - intros pid payload g' Hstep. cbn [step] in Hstep.
    destruct (providers (prov g) !! pid) as [[|ds t a|[|]]|];
      [discriminate Hstep | discriminate Hstep | | discriminate Hstep
      | discriminate Hstep].
    apply (inj Some) in Hstep; subst g'. now apply onMsg_status.
  - intros pid g' Hstep. cbn [step] in Hstep.
    destruct (providers (prov g) !! pid) as [[|ds t a|[|]]|];
      [discriminate Hstep | discriminate Hstep | | discriminate Hstep
      | discriminate Hstep].
    apply (inj Some) in Hstep; subst g'. apply onSseError_status.
Qed.

Lemma status_leaves_init_through_loading_witness :
  let events := [EvConnected; EvSseError 0] in
  exists g g',
    run events (newGrid streamHost) = Some g /\
    leavesInitThroughLoading (StInit :: statusLog g) = true /\
    m_status (model g) = StError /\
    step (EvSseMessage 0 (DataJson PayloadOther)) g = Some g' /\
    m_status (model g') = StReady.
Proof.
  intros events.
  destruct (run events (newGrid streamHost)) as [g|] eqn:Hg;
    [|vm_compute in Hg; discriminate].
  destruct (step (EvSseMessage 0 (DataJson PayloadOther)) g) as [g'|] eqn:Hg';
    [|exfalso; revert Hg'; vm_compute in Hg; apply (inj Some) in Hg; subst g;
      vm_compute; discriminate].
  exists g, g'.
  assert (quietHost streamHost) as Hh by (vm_compute; constructor).
  assert (Forall quietEvent events) as He by (repeat constructor).
  destruct (status_leaves_init_through_loading streamHost events g Hh He Hg)
    as (Hl & _ & _ & Hmsg & _).
  destruct (Hmsg 0%nat PayloadOther g' Hg') as [Hst _].
  split; [reflexivity|]. split; [exact Hl|]. split; [|split; [exact Hg' | exact Hst]].
  vm_compute in Hg. apply (inj Some) in Hg. subst g. reflexivity.
Defined.

(** ** Continuations and initialization cycles *)

(** *** What the capability calls leave alone *)

Section CallFrame.

Variable R : Grid -> Grid -> Prop.
Hypothesis R_refl : forall g, R g g.
Hypothesis R_trans : forall g1 g2 g3, R g1 g2 -> R g2 g3 -> R g1 g3.
Hypothesis R_basic : forall op g, R g (applyBasic op g).




End CallFrame.
(** *** Providers, requests and suspended initializations *)










Lemma extendsWork_refl (g : Grid) : extendsWork g g.
Proof. repeat split; reflexivity. Qed.





Lemma keepsWork_setError (e : string) (g : Grid) : keepsWork g (setError e g).
Proof. repeat split. Qed.
















(** *** Requests, suspended initializations and reinitialization *)










(** When the aborted request of [abortedEvents] fails, [start] of the
    stopped provider goes on and arms its poll timer. *)
Example aborted_start_arms_timer :
  option_map (fun g => providers (prov g))
    (run (abortedEvents ++ [EvFetchSettled 0 abortFailure]) (newGrid pollHost))
  = let ds := mkDataSource (Some "fetch") None (Some "/rows") (Some 5000) in
    Some [FetchInst ds true None; FetchInst ds false (Some 1%nat)].
Proof. vm_compute. reflexivity. Qed.

(** A grid with a plugin is reinitialized while the import of the plugin
    module of cycle 0 is awaited. Both initializations then resume in
    cycle 1, the one of cycle 0 first: each subscribes the handler of the
    plugin and opens a stream, and the second closes the stream of the
    first. *)
Example stale_initialization_resumes :
  option_map (fun g => (cycle g, map it_cycle (inits g),
                        map it_pending (inits g),
                        length (handlersOf "data" g), providers (prov g)))
    (run reloadEvents (newGrid sortedStreamHost))
  = Some (1%nat, [0; 1]%nat, [true; true], 0%nat, []) /\
  option_map (fun g => (cycle g, length (handlersOf "data" g),
                        providers (prov g), activeDataProvider (prov g)))
    (run (reloadEvents ++ [EvPluginsLoaded 0]) (newGrid sortedStreamHost))
  = Some (1%nat, 1%nat, [SseInst true], Some 0%nat) /\
  option_map (fun g => (cycle g, length (handlersOf "data" g),
                        providers (prov g), activeDataProvider (prov g)))
    (run (reloadEvents ++ [EvPluginsLoaded 0; EvPluginsLoaded 1])
       (newGrid sortedStreamHost))
  = Some (1%nat, 2%nat, [SseInst false; SseInst true], Some 1%nat).
Proof. vm_compute. repeat split. Qed.

(** ** Scenarios of the specification *)

(** A static source: after initialization the model holds the snapshot's
    row and the status is ready. *)
Example static_scenario :
  option_map (fun g => (m_rows (model g), m_status (model g), statusLog g,
                        map col_key (m_columns (model g))))
    (run [EvConnected] (newGrid staticHost))
  = Some ([adaRow], StReady, [StLoading; StReady], ["id"; "name"]).
Proof. vm_compute. reflexivity. Qed.

(** A polled source answering HTTP 500: status error, and the message
    names the failure. *)
Example poll_failure_scenario :
  option_map (fun g => (m_status (model g), m_error (model g)))
    (run [EvConnected; EvFetchSettled 0 (FetchFailed "HTTP 500")]
       (newGrid pollHost))
  = Some (StError, "Fetch failed: HTTP 500").
Proof. vm_compute. reflexivity. Qed.

(** The table of the module's documentation, upgraded. *)
Example upgrade_scenario :
  gridSpecFromTable
    {| tHead := Some [ {| tr_cells := [mkTableCell "ID"; mkTableCell " Name "];
                          tr_data_row_id := None |} ];
       tBodies := [ [ {| tr_cells := [mkTableCell "1"; mkTableCell "Ada"];
                         tr_data_row_id := None |};
                      {| tr_cells := [mkTableCell "2"];
                         tr_data_row_id := Some "second" |} ] ] |}
    {| hint_id := "g"; hint_title := Some "Patients" |}
  = let columns := [mkColumn "c1" "ID" None None;
                    mkColumn "c2" "Name" None None] in
    mkGridSpec "g" (Some "Patients")
      (Some (mkUi false (Some false) false None))
      (Some columns)
      (Some (mkDataSource (Some "static")
               (Some (mkSnapshot (Some columns)
                        (Some [mkRow "g__r1"
                                 [("c1", CellStr "1"); ("c2", CellStr "Ada")] [];
                               mkRow "second"
                                 [("c1", CellStr "2"); ("c2", CellStr "")] []])
                        None None))
               None None))
      [].
Proof. vm_compute. reflexivity. Qed.

(** Only the last assignment of the failed-then-recovered stream is
    outside the listed transitions. *)
Example listed_transitions_scenario :
  onlyListedTransitions [StInit; StLoading; StLoading; StError] = true /\
  listedTransition StError StReady = false.
Proof. split; reflexivity. Qed.

